(** * Newsletter generator: content normalisation and image selection

    A shallow embedding of [newsletter/content.py],
    [newsletter/images/providers.py], [newsletter/images/selector.py] and
    the [generate] command of [newsletter/cli.py], with the properties
    their specification states about them. *)

From Stdlib Require Import ZArith Ascii String Floats.SpecFloat.
From stdpp Require Import base option list strings gmap fin_maps.

Set Warnings "-register-all".
Local Open Scope string_scope.

(** ** Python values

    The objects [json.loads] and [yaml.safe_load] build.  A Python [str] is
    kept as its UTF-8 bytes.  Dictionaries are keyed by strings: the loader
    only ever looks up string literals, which a key of another type never
    equals.  [VBytes] is a YAML binary scalar; [VObject] stands for the
    remaining objects of the YAML loader (dates, timestamps, sets), of
    which the loader uses the truth value alone. *)

Inductive value : Type :=
  | VNone
  | VBool (b : bool)
  | VInt (z : Z)
  | VFloat (f : spec_float)
  | VStr (s : string)
  | VBytes (bs : list Byte.byte)
  | VObject (type_name : string) (truth : bool)
  | VList (l : list value)
  | VDict (d : gmap string value).

(** Python's truth test ([bool(x)]), the test [or] applies to its left
    operand.  [None], [False], zero, and empty strings and containers are
    false; everything else is true. *)
Class Truthy (A : Type) := truthy : A → bool.

#[export] Instance string_truthy : Truthy string :=
  fun s => negb (String.length s =? 0)%nat.

#[export] Instance value_truthy : Truthy value :=
  fun v =>
    match v with
    | VNone => false
    | VBool b => b
    | VInt z => negb (z =? 0)%Z
    | VFloat (S754_zero _) => false
    | VFloat _ => true
    | VStr s => truthy s
    | VBytes bs => negb (length bs =? 0)%nat
    | VObject _ truth => truth
    | VList l => negb (length l =? 0)%nat
    | VDict d => negb (size d =? 0)%nat
    end.

(** [a or b]: [a] when it is truthy, otherwise [b]. *)
Definition py_or {A : Type} `{Truthy A} (a b : A) : A :=
  if truthy a then a else b.

Infix "`or`" := py_or (at level 50, left associativity).

(** [d.get(k)] and [d.get(k, default)]. *)
Definition dict_get (d : gmap string value) (k : string) : value :=
  default VNone (d !! k).

Definition dict_get_default (d : gmap string value) (k : string)
    (dflt : value) : value :=
  default dflt (d !! k).

(** ** Exceptions and results

    [JSONDecodeError] and [YAMLError] stand for the exception the parser
    raised on a text it rejects, whatever its class; [OSError] is a plain
    [OSError] with its errno, none of the subclasses listed before it. *)

Inductive exn : Type :=
  | FileNotFoundError (p : string)
  | IsADirectoryError (p : string)
  | NotADirectoryError (p : string)
  | FileExistsError (p : string)
  | UnicodeDecodeError
  | JSONDecodeError
  | YAMLError
  | AttributeError
  | TemplateError
  | OSError (errno : Z).

Inductive result (A : Type) : Type :=
  | Ok (a : A)
  | Raise (e : exn).
Arguments Ok {A} a.
Arguments Raise {A} e.

#[export] Instance result_ret : MRet result := fun A a => Ok a.

#[export] Instance result_bind : MBind result := fun A B k r =>
  match r with
  | Ok a => k a
  | Raise e => Raise e
  end.

(** The error a library call reports by returning nothing. *)
Definition or_raise {A : Type} (e : exn) (o : option A) : result A :=
  match o with
  | Some a => Ok a
  | None => Raise e
  end.

(** The NotFound class of the error taxonomy. *)
Definition is_not_found (e : exn) : bool :=
  match e with
  | FileNotFoundError _ => true
  | _ => false
  end.

(** ** Paths

    [pathlib.PurePosixPath]: a root and the list of components, with empty
    and [.] components dropped when the path is built. *)

Module Path.

Record t : Type := mk { root : string; parts : list string }.

(** [s.split(sep)] for a one-character separator. *)
Fixpoint split_on (sep : ascii) (s : string) : list string :=
  match s with
  | EmptyString => [EmptyString]
  | String a s' =>
      if Ascii.eqb a sep then EmptyString :: split_on sep s'
      else match split_on sep s' with
           | [] => [String a EmptyString]
           | w :: ws => String a w :: ws
           end
  end.

Definition is_component (w : string) : bool :=
  negb (String.eqb w "") && negb (String.eqb w ".").

(** Exactly two leading slashes are kept; one, or three and more, make
    the root [/]. *)
Definition root_of (s : string) : string :=
  if String.prefix "///" s then "/"
  else if String.prefix "//" s then "//"
  else if String.prefix "/" s then "/"
  else "".

(** [Path(s)] *)
Definition of_string (s : string) : t :=
  mk (root_of s) (filter (fun w => Is_true (is_component w)) (split_on "/" s)).

(** [p / seg]: an absolute segment replaces the path. *)
Definition truediv (p : t) (seg : string) : t :=
  if String.prefix "/" seg then of_string seg
  else mk (root p) (parts p ++ parts (of_string seg)).

(** [str(p)] *)
Definition str (p : t) : string :=
  match root p, parts p with
  | EmptyString, [] => "."
  | r, ws => r ++ String.concat "/" ws
  end.

(** [p.name]: the final component, if any. *)
Definition name (p : t) : string := List.last (parts p) "".

(** [s.rfind(c)], [None] for Python's [-1]. *)
Fixpoint rfind (c : ascii) (s : string) : option nat :=
  match s with
  | EmptyString => None
  | String a s' =>
      match rfind c s' with
      | Some i => Some (S i)
      | None => if Ascii.eqb a c then Some 0 else None
      end
  end.

(** [p.suffix]: the name from its last dot on, when that dot is neither
    the first nor the last character of the name. *)
Definition suffix (p : t) : string :=
  let name := name p in
  match rfind "." name with
  | Some i =>
      if (0 <? i)%nat && (i <? String.length name - 1)%nat
      then String.substring i (String.length name - i) name
      else ""
  | None => ""
  end.

End Path.

Infix "/p" := Path.truediv (at level 40, left associativity).

(** [s.lower()] on the ASCII letters; the other bytes stay.  No character
    outside ASCII has a lower case among the letters of [.yaml] and
    [.yml], the only strings a lowered suffix is compared with. *)
Definition lower_ascii (a : ascii) : ascii :=
  let n := nat_of_ascii a in
  if (65 <=? n)%nat && (n <=? 90)%nat then ascii_of_nat (n + 32) else a.

Fixpoint lower (s : string) : string :=
  match s with
  | EmptyString => EmptyString
  | String a s' => String (lower_ascii a) (lower s')
  end.

(** ** The filesystem

    What the loader and the generator see of the disk: the node found at
    [str(p)].  A [File] holds the text [read_text(encoding="utf-8")]
    returns; a [BinaryFile] is a file whose bytes are not valid UTF-8.
    [Refused errno] marks a path the operating system refuses to examine:
    [stat] fails there with an errno other than ENOENT, ENOTDIR, EBADF and
    ELOOP (ENAMETOOLONG for a name longer than the system allows, EACCES
    below a directory that may not be searched).  The map has no links,
    and a path is looked up as it is spelled: the properties of the
    generator are stated for paths without a [..] component. *)

Inductive node : Type :=
  | Directory
  | File (text : string)
  | BinaryFile
  | Refused (errno : Z).

Abbreviation filesystem := (gmap string node).

(** [p.exists()] as pathlib 3.11 has it: [stat] succeeds, or fails with
    an errno that means the path is not there; any other [OSError] is
    raised again. *)
Definition exists_ (fs : filesystem) (p : Path.t) : result bool :=
  match fs !! Path.str p with
  | None => Ok false
  | Some (Refused errno) => Raise (OSError errno)
  | Some _ => Ok true
  end.

(** [p.read_text(encoding="utf-8")] *)
Definition read_text (fs : filesystem) (p : Path.t) : result string :=
  match fs !! Path.str p with
  | None => Raise (FileNotFoundError (Path.str p))
  | Some Directory => Raise (IsADirectoryError (Path.str p))
  | Some BinaryFile => Raise UnicodeDecodeError
  | Some (Refused errno) => Raise (OSError errno)
  | Some (File text) => Ok text
  end.

(** ** content.py *)

Definition GradeKeys : list (string * string) :=
  [("6th", "grade6"); ("7th", "grade7"); ("8th", "grade8")].

Section Content.

(** The two parsers are library code: [json.loads] and [yaml.safe_load],
    [None] when they raise on the text (a decode error, or the ValueError
    or RecursionError a constructor of theirs raises). *)
Variable json_loads : string → option value.
Variable yaml_safe_load : string → option value.

(** [load_content], lines 9-16: the existence check, the read and the
    parser chosen by the extension. *)
Definition read_document (fs : filesystem) (path : string) : result value :=
  let p := Path.of_string path in
  found ← exists_ fs p;
  if negb found then Raise (FileNotFoundError (Path.str p)) else
  text ← read_text fs p;
  if bool_decide (lower (Path.suffix p) ∈ [".yaml"; ".yml"]) then
    v ← or_raise YAMLError (yaml_safe_load text);
    Ok (v `or` VDict ∅)
  else
    or_raise JSONDecodeError (json_loads (text `or` "{}")).

(** The bound method [data.get]: only a dictionary has one. *)
Definition get_method (data : value) : result (gmap string value) :=
  match data with
  | VDict d => Ok d
  | _ => Raise AttributeError
  end.

(** [load_content], lines 19-28: the dictionary literal [out]. *)
Definition normalize (data : gmap string value) : gmap string value :=
  list_to_map
    [ ("grade6", dict_get data "grade6" `or` dict_get data "6th" `or` VList []);
      ("grade7", dict_get data "grade7" `or` dict_get data "7th" `or` VList []);
      ("grade8", dict_get data "grade8" `or` dict_get data "8th" `or` VList []);
      ("announcements", dict_get_default data "announcements" (VList []));
      ("events", dict_get_default data "events" (VList []));
      ("achievements", dict_get_default data "achievements" (VList []));
      ("week", dict_get data "week" `or` VStr "This Week");
      ("date", dict_get data "date") ].

Definition load_content (fs : filesystem) (path : string)
    : result (gmap string value) :=
  data ← read_document fs path;
  d ← get_method data;
  Ok (normalize d).

End Content.

(** ** images/providers.py *)

Record ImageRequest : Type := mkImageRequest {
  prompt : string;
  style : option string;
  hint : option string
}.

Record ImageResult : Type := mkImageResult {
  url : option string;
  path : option string;
  attribution : option string
}.

(** [ImageRequest(prompt=topic)] and [ImageResult()]: the dataclasses'
    defaults. *)
Definition ImageRequest_of_prompt (topic : string) : ImageRequest :=
  mkImageRequest topic None None.

Definition ImageResult_empty : ImageResult := mkImageResult None None None.

(** A [for] loop whose body may [return]: the first returned value, or
    [None] when the loop runs to its end. *)
Fixpoint for_return {A R : Type} (l : list A) (body : A → option R)
    : option R :=
  match l with
  | [] => None
  | x :: l' =>
      match body x with
      | Some r => Some r
      | None => for_return l' body
      end
  end.

Class ImageProvider (P : Type) : Type := {
  name : P → string;
  available : P → bool;
  fetch : P → ImageRequest → ImageResult
}.

(** The base class. *)
Inductive BaseProvider : Type := mkBaseProvider.

#[export] Instance BaseProvider_provider : ImageProvider BaseProvider := {
  name _ := "base";
  available _ := false;
  fetch _ _ := ImageResult_empty
}.

Record LocalProvider : Type := mkLocalProvider {
  search_paths : list string
}.

#[export] Instance LocalProvider_provider : ImageProvider LocalProvider := {
  name _ := "local";
  available _ := true;
  fetch self req :=
    default ImageResult_empty
      (for_return (search_paths self)
         (fun p => Some (mkImageResult None (Some p) (Some "Local asset"))))
}.

(** ** config.py *)

Record AppConfig : Type := mkAppConfig {
  brand_name : string;
  primary_color : string;
  accent_color : string;
  assets_dir : string;
  openai_api_key : option string;
  stability_api_key : option string;
  replicate_api_token : option string;
  pexels_api_key : option string;
  pixabay_api_key : option string;
  unsplash_access_key : option string;
  openclipart_base_url : string;
  giphy_api_key : option string;
  news_api_key : option string;
  reddit_client_id : option string;
  reddit_client_secret : option string
}.

(** [AppConfig()]: every field from the environment, with its default. *)
Definition AppConfig_of_env (env : gmap string string) : AppConfig :=
  let getenv k := env !! k in
  let getenv_default k d := default d (env !! k) in
  {| brand_name := getenv_default "BRAND_NAME" "Glennallen Panthers";
     primary_color := getenv_default "PRIMARY_COLOR" "#000000";
     accent_color := getenv_default "ACCENT_COLOR" "#C8102E";
     assets_dir := getenv_default "ASSETS_DIR" "assets";
     openai_api_key := getenv "OPENAI_API_KEY";
     stability_api_key := getenv "STABILITY_AI_API_KEY";
     replicate_api_token := getenv "REPLICATE_API_TOKEN";
     pexels_api_key := getenv "PEXELS_API_KEY";
     pixabay_api_key := getenv "PIXABAY_API_KEY";
     unsplash_access_key := getenv "UNSPLASH_ACCESS_KEY";
     openclipart_base_url :=
       getenv_default "OPENCLIPART_BASE_URL" "https://openclipart.org";
     giphy_api_key := getenv "GIPHY_API_KEY";
     news_api_key := getenv "NEWS_API_KEY";
     reddit_client_id := getenv "REDDIT_CLIENT_ID";
     reddit_client_secret := getenv "REDDIT_CLIENT_SECRET" |}.

(** ** images/selector.py *)

(** The two paths of the list [assets]. *)
Definition header_asset (cfg : AppConfig) : string :=
  Path.str (Path.of_string (assets_dir cfg) /p "images" /p "panther" /p "header.png").

Definition badge_asset (cfg : AppConfig) : string :=
  Path.str (Path.of_string (assets_dir cfg) /p "images" /p "panther" /p "badge.png").

Definition candidate_assets (cfg : AppConfig) : list string :=
  [ header_asset cfg; badge_asset cfg ].

Definition choose_image (topic : string) (cfg : AppConfig) : ImageResult :=
  let assets := candidate_assets cfg in
  let provider := mkLocalProvider assets in
  fetch provider (ImageRequest_of_prompt topic).

(** ** cli.py *)

(** The non-empty prefixes of a list, shortest first. *)
Fixpoint prefixes {A : Type} (l : list A) : list (list A) :=
  match l with
  | [] => []
  | x :: l' => [x] :: map (cons x) (prefixes l')
  end.

(** [p.parent] *)
Definition parent (p : Path.t) : Path.t :=
  Path.mk (Path.root p) (removelast (Path.parts p)).

(** The directories that lead to [p], outermost first. *)
Definition parent_dirs (p : Path.t) : list Path.t :=
  map (Path.mk (Path.root p)) (prefixes (removelast (Path.parts p))).

(** What the kernel finds when it walks the directories that lead to a
    path. *)
Inductive walk : Type :=
  | Reached
  | Missing
  | NotADirectory
  | RefusedAt (errno : Z).

Fixpoint walk_dirs (fs : filesystem) (dirs : list Path.t) : walk :=
  match dirs with
  | [] => Reached
  | q :: rest =>
      match fs !! Path.str q with
      | None => Missing
      | Some Directory => walk_dirs fs rest
      | Some (Refused errno) => RefusedAt errno
      | Some _ => NotADirectory
      end
  end.

(** [os.mkdir(p)]: the errors name the path handed to it.  A path with no
    component is the current directory or the root, which are there. *)
Definition os_mkdir (fs : filesystem) (p : Path.t) : result filesystem :=
  match Path.parts p with
  | [] => Raise (FileExistsError (Path.str p))
  | _ :: _ =>
      match walk_dirs fs (parent_dirs p) with
      | Missing => Raise (FileNotFoundError (Path.str p))
      | NotADirectory => Raise (NotADirectoryError (Path.str p))
      | RefusedAt errno => Raise (OSError errno)
      | Reached =>
          match fs !! Path.str p with
          | None => Ok (<[Path.str p := Directory]> fs)
          | Some (Refused errno) => Raise (OSError errno)
          | Some _ => Raise (FileExistsError (Path.str p))
          end
      end
  end.

(** [p.is_dir()]: false where the path is missing or no directory, the
    [OSError] itself where [stat] is refused. *)
Definition is_dir (fs : filesystem) (p : Path.t) : result bool :=
  match Path.parts p with
  | [] => Ok true
  | _ :: _ =>
      match walk_dirs fs (parent_dirs p) with
      | Reached =>
          match fs !! Path.str p with
          | Some Directory => Ok true
          | Some (Refused errno) => Raise (OSError errno)
          | _ => Ok false
          end
      | RefusedAt errno => Raise (OSError errno)
      | _ => Ok false
      end
  end.

(** The handler [except OSError] of [Path.mkdir] under [exist_ok=True]:
    the error is dropped when the path is a directory. *)
Definition mkdir_exist_ok (fs : filesystem) (p : Path.t) (e : exn)
    : filesystem * result unit :=
  match is_dir fs p with
  | Ok true => (fs, Ok tt)
  | Ok false => (fs, Raise e)
  | Raise e' => (fs, Raise e')
  end.

(** [p.mkdir(parents=False, exist_ok=True)] *)
Definition mkdir_leaf (fs : filesystem) (p : Path.t)
    : filesystem * result unit :=
  match os_mkdir fs p with
  | Ok fs' => (fs', Ok tt)
  | Raise (FileNotFoundError f) => (fs, Raise (FileNotFoundError f))
  | Raise e => mkdir_exist_ok fs p e
  end.

(** [p.mkdir(parents=True, exist_ok=True)] for the path with root [root]
    and the components [rev rparts]: [os.mkdir] is tried first; when the
    parent is missing the parent is made in the same way and the
    directory itself after it.  Nothing made is taken back on an error. *)
Fixpoint mkdir_rec (root : string) (rparts : list string) (fs : filesystem)
    : filesystem * result unit :=
  let self := Path.mk root (rev rparts) in
  match os_mkdir fs self with
  | Ok fs' => (fs', Ok tt)
  | Raise (FileNotFoundError f) =>
      match rparts with
      | [] => (fs, Raise (FileNotFoundError f))
      | _ :: rparent =>
          match mkdir_rec root rparent fs with
          | (fs1, Ok _) => mkdir_leaf fs1 self
          | (fs1, Raise e) => (fs1, Raise e)
          end
      end
  | Raise e => mkdir_exist_ok fs self e
  end.

Definition mkdir_parents (fs : filesystem) (p : Path.t)
    : filesystem * result unit :=
  mkdir_rec (Path.root p) (rev (Path.parts p)) fs.

(** [p.write_text(html, encoding="utf-8")]: the file is opened for
    writing, which fails on a directory, and the text written.  A string
    of the model is UTF-8 already, so encoding it cannot fail. *)
Definition write_text (fs : filesystem) (p : Path.t) (html : string)
    : result filesystem :=
  match fs !! Path.str p with
  | Some Directory => Raise (IsADirectoryError (Path.str p))
  | Some (Refused errno) => Raise (OSError errno)
  | _ => Ok (<[Path.str p := File html]> fs)
  end.

Section Cli.

Variable json_loads : string → option value.
Variable yaml_safe_load : string → option value.

(** [render_newsletter] runs a Jinja template that is not part of the
    sources: [None] when the template is missing or invalid. *)
Variable render_newsletter : gmap string value → AppConfig → option string.

(** The process environment [AppConfig()] reads. *)
Variable env : gmap string string.

(** The body of [generate]: the filesystem it leaves and the line it
    prints.  A run that fails leaves what it had made until then.  The
    viewer that [open_after] starts touches no file, and its failures are
    swallowed. *)
Definition generate (fs : filesystem) (data out_dir : string)
    (open_after : bool) : filesystem * result string :=
  let cfg := AppConfig_of_env env in
  match load_content json_loads yaml_safe_load fs data with
  | Raise e => (fs, Raise e)
  | Ok content =>
      match render_newsletter content cfg with
      | None => (fs, Raise TemplateError)
      | Some html =>
          let out_path := Path.of_string out_dir in
          match mkdir_parents fs out_path with
          | (fs1, Raise e) => (fs1, Raise e)
          | (fs1, Ok _) =>
              let index_html := out_path /p "index.html" in
              match write_text fs1 index_html html with
              | Raise e => (fs1, Raise e)
              | Ok fs2 => (fs2, Ok ("Wrote " ++ Path.str index_html))
              end
          end
      end
  end.

End Cli.

(** ** Stand-ins for the parsers

    Two small tables that answer as [json.loads] and [yaml.safe_load] do on
    a handful of texts and reject every other text; the closed examples
    below run the loader on them. *)

Definition sample_json_loads (text : string) : option value :=
  if String.eqb text "{}" then Some (VDict ∅)
  else if String.eqb text "null" then Some VNone
  else if String.eqb text "[1]" then Some (VList [VInt 1])
  else None.

Definition alias_document : gmap string value :=
  {[ "6th" := VList [VStr "a"] ]}.

Definition canonical_document : gmap string value :=
  {[ "grade6" := VList [VStr "a"] ]}.

Definition null_announcements_document : gmap string value :=
  {[ "announcements" := VNone ]}.

Definition shadowed_document : gmap string value :=
  list_to_map [("grade6", VList []); ("6th", VList [VStr "a"])].

Definition null_grade_document : gmap string value :=
  list_to_map [("grade6", VNone); ("6th", VList [VStr "a"])].

Definition scalar_grade_document : gmap string value :=
  {[ "grade6" := VInt 5 ]}.

Definition sample_yaml_safe_load (text : string) : option value :=
  if String.eqb text "" then Some VNone
  else if String.eqb text "grade6: [a]" then Some (VDict canonical_document)
  else if String.eqb text "6th: [a]" then Some (VDict alias_document)
  else if String.eqb text "announcements:" then
    Some (VDict null_announcements_document)
  else if String.eqb text "{grade6: [], 6th: [a]}" then
    Some (VDict shadowed_document)
  else if String.eqb text "{grade6: null, 6th: [a]}" then
    Some (VDict null_grade_document)
  else if String.eqb text "grade6: 5" then Some (VDict scalar_grade_document)
  else None.

Definition sample_fs : filesystem :=
  list_to_map
    [ ("data", Directory);
      ("data/empty.yml", File "");
      ("data/empty.json", File "");
      ("data/canonical.yml", File "grade6: [a]");
      ("data/alias.yml", File "6th: [a]");
      ("data/null.yml", File "announcements:");
      ("data/shadowed.yml", File "{grade6: [], 6th: [a]}");
      ("data/null_grade.yml", File "{grade6: null, 6th: [a]}");
      ("data/scalar.yml", File "grade6: 5") ].

Definition sample_read : filesystem → string → result value :=
  read_document sample_json_loads sample_yaml_safe_load.

Definition sample_load : filesystem → string → result (gmap string value) :=
  load_content sample_json_loads sample_yaml_safe_load.

(** ** Vocabulary of the specification *)

(** A sequence is a list, possibly empty. *)
Definition is_sequence (v : value) : bool :=
  match v with
  | VList _ => true
  | _ => false
  end.

(** The six sequence fields of WeeklyContent. *)
Definition sequence_fields : list string :=
  ["grade6"; "grade7"; "grade8"; "announcements"; "events"; "achievements"].

(** The three fields that have no alias. *)
Definition plain_fields : list string :=
  ["announcements"; "events"; "achievements"].

(** The grade rule in the specification's words: the canonical key's value
    if the canonical key is present, else the alias key's value if the
    alias is present, else the empty sequence. *)
Definition spec_grade_value (data : gmap string value) (canonical alias : string)
    : value :=
  match data !! canonical with
  | Some v => v
  | None =>
      match data !! alias with
      | Some w => w
      | None => VList []
      end
  end.

(** The value under a key when the key is present and its value truthy. *)
Definition truthy_at (data : gmap string value) (k : string) : option value :=
  match data !! k with
  | Some v => if truthy v then Some v else None
  | None => None
  end.

(** The grade rule with truthiness in the place of presence. *)
Definition first_truthy_grade (data : gmap string value) (canonical alias : string)
    : value :=
  match truthy_at data canonical with
  | Some v => v
  | None =>
      match truthy_at data alias with
      | Some w => w
      | None => VList []
      end
  end.

(** A key whose value, if any, is a sequence or is falsy. *)
Definition sequence_or_falsy (o : option value) : bool :=
  match o with
  | Some v => is_sequence v || negb (truthy v)
  | None => true
  end.

(** A key that is absent or holds a sequence. *)
Definition sequence_or_absent (o : option value) : bool :=
  match o with
  | Some v => is_sequence v
  | None => true
  end.

(** Something is at the path: a directory or a file.  Where the operating
    system refuses to look there is nothing for the program. *)
Definition on_disk (fs : filesystem) (p : Path.t) : bool :=
  match fs !! Path.str p with
  | Some Directory | Some (File _) | Some BinaryFile => true
  | Some (Refused _) | None => false
  end.

(** A name of 300 bytes, more than the 255 a component may have, and a
    disk where nothing of that name exists: [stat] fails on it with
    ENAMETOOLONG, errno 36. *)
Definition long_name : string := String.concat "" (repeat "a" 300).

Definition long_name_fs : filesystem := {[ long_name := Refused 36 ]}.

(** The fully defaulted WeeklyContent. *)
Definition default_content : gmap string value :=
  list_to_map
    [ ("grade6", VList []); ("grade7", VList []); ("grade8", VList []);
      ("announcements", VList []); ("events", VList []);
      ("achievements", VList []);
      ("week", VStr "This Week"); ("date", VNone) ].

(** ** Vocabulary of the further properties *)

(** The keys of the record [load_content] returns. *)
Definition content_keys : gset string :=
  list_to_set
    ["grade6"; "grade7"; "grade8"; "announcements"; "events"; "achievements";
     "week"; "date"].

(** The keys [load_content] looks up in the document. *)
Definition read_keys : list string :=
  ["grade6"; "6th"; "grade7"; "7th"; "grade8"; "8th";
   "announcements"; "events"; "achievements"; "week"; "date"].

Definition is_dict (v : value) : bool :=
  match v with
  | VDict _ => true
  | _ => false
  end.

(** The test that sends a file to the YAML parser. *)
Definition yaml_suffix (path : string) : bool :=
  bool_decide (lower (Path.suffix (Path.of_string path)) ∈ [".yaml"; ".yml"]).

(** The directories [out_path.mkdir(parents=True, exist_ok=True)] visits. *)
Definition ancestors_and_self (p : Path.t) : list Path.t :=
  map (Path.mk (Path.root p)) (prefixes (Path.parts p)).

(** [fs'] is [fs] with directories added at some of the keys [ks]:
    nothing is removed or altered, and what is new is a directory at
    one of these keys. *)
Definition adds_dirs (ks : list string) (fs fs' : filesystem) : Prop :=
  (∀ k n, fs !! k = Some n → fs' !! k = Some n)
  ∧ (∀ k n, fs' !! k = Some n → fs !! k = Some n ∨ (n = Directory ∧ k ∈ ks)).

(** A path without a [..] component. *)
Definition plain (p : Path.t) : Prop := ".." ∉ Path.parts p.

(** A key that spells a plain path of the root [root] the way [str]
    does: two such keys that differ name two different entries. *)
Definition plain_key (root k : string) : Prop :=
  k = Path.str (Path.of_string k)
  ∧ Path.root (Path.of_string k) = root
  ∧ plain (Path.of_string k).

(** More texts for the stand-in parsers, and the files that hold them. *)
Definition titled_document : gmap string value :=
  list_to_map [("6th", VList [VStr "a"]); ("title", VStr "hi")].

Definition both_keys_document : gmap string value :=
  list_to_map [("grade6", VList [VStr "a"]); ("6th", VList [VStr "b"])].

Definition more_yaml_safe_load (text : string) : option value :=
  if String.eqb text "[]" then Some (VList [])
  else if String.eqb text "- a" then Some (VList [VStr "a"])
  else if String.eqb text "{6th: [a], title: hi}" then
    Some (VDict titled_document)
  else if String.eqb text "{grade6: [a], 6th: [b]}" then
    Some (VDict both_keys_document)
  else sample_yaml_safe_load text.

Definition more_fs : filesystem :=
  list_to_map
    [ ("data", Directory);
      ("data/alias.yml", File "6th: [a]");
      ("data/canonical.yml", File "grade6: [a]");
      ("data/titled.yml", File "{6th: [a], title: hi}");
      ("data/both.yml", File "{grade6: [a], 6th: [b]}");
      ("data/list.yml", File "[]");
      ("data/items.yml", File "- a");
      ("data/list.json", File "[1]");
      ("data/null.json", File "null");
      ("data/broken.json", File "{");
      ("data/broken.yml", File "a: b: c");
      ("data/photo.yml", BinaryFile);
      ("blocked", File "not a directory") ].

Definition more_load : filesystem → string → result (gmap string value) :=
  load_content sample_json_loads more_yaml_safe_load.

(** A renderer for the closed examples: the week label in a paragraph. *)
Definition sample_render (content : gmap string value) (cfg : AppConfig)
    : option string :=
  match content !! "week" with
  | Some (VStr w) => Some ("<p>" ++ brand_name cfg ++ ": " ++ w ++ "</p>")
  | _ => None
  end.

Definition more_generate : filesystem → string → string → bool
    → filesystem * result string :=
  generate sample_json_loads more_yaml_safe_load sample_render ∅.

(** The filesystem a first run into [out/site] leaves, and one where
    [index.html] is already taken by a directory. *)
Definition site_fs : filesystem :=
  fst (more_generate more_fs "data/alias.yml" "out/site" true).


(** * Properties *)

(** ** The path model on concrete inputs *)

Example path_join_ex :
  Path.str (Path.of_string "assets" /p "images" /p "panther" /p "header.png")
  = "assets/images/panther/header.png".
Proof. vm_compute. reflexivity. Qed.

Example path_suffix_ex :
  map (fun s => lower (Path.suffix (Path.of_string s)))
      ["data/sample_week.yml"; "Week.YAML"; "week.json"; "week"; ".yaml"; "a.b/c"]
  = [".yml"; ".yaml"; ".json"; ""; ""; ""].
Proof. vm_compute. reflexivity. Qed.

Example path_normalise_ex :
  map (fun s => Path.str (Path.of_string s))
      ["a//b/./c/"; "//a"; "///a"; ""; "."; "/"; "./x"]
  = ["a/b/c"; "//a"; "/a"; "."; "."; "/"; "x"].
Proof. vm_compute. reflexivity. Qed.

(** ** Image providers and the selector *)

Lemma for_return_first {A R : Type} (x : A) (l : list A) (f : A → R) :
  for_return (x :: l) (fun y => Some (f y)) = Some (f x).
Proof. reflexivity. Qed.

Lemma for_return_nil {A R : Type} (body : A → option R) :
  for_return [] body = None.
Proof. reflexivity. Qed.

Lemma fetch_local (candidates : list string) (req : ImageRequest) :
  fetch (mkLocalProvider candidates) req =
    match candidates with
    | first :: _ => mkImageResult None (Some first) (Some "Local asset")
    | [] => ImageResult_empty
    end.
Proof.
  destruct candidates as [|first rest]; cbn [fetch LocalProvider_provider search_paths].
  - now rewrite for_return_nil.
  - now rewrite for_return_first.
Qed.

(** C2. [LocalProvider.fetch] answers with the first candidate and the
    attribution "Local asset" (no url) when the candidate list is not
    empty, and with the empty result (no path, no url, no attribution)
    when it is.  The filesystem is no argument of [fetch]: whether the
    candidate exists on disk cannot change the answer. *)
Theorem LocalProvider_fetch_spec (candidates : list string) (req : ImageRequest) :
  fetch (mkLocalProvider candidates) req =
    match candidates with
    | first :: _ =>
        {| url := None; path := Some first; attribution := Some "Local asset" |}
    | [] => {| url := None; path := None; attribution := None |}
    end.
Proof. rewrite fetch_local. now destruct candidates. Qed.

Lemma truediv_component (p : Path.t) (seg : string) :
  String.prefix "/" seg = false →
  Path.parts (Path.of_string seg) = [seg] →
  p /p seg = Path.mk (Path.root p) (Path.parts p ++ [seg]).
Proof. intros Hrel Hparts. unfold Path.truediv. now rewrite Hrel, Hparts. Qed.

Lemma str_nonempty (r : string) (ws : list string) (w : string) :
  Path.str (Path.mk r (ws ++ [w])) = r ++ String.concat "/" (ws ++ [w]).
Proof. unfold Path.str. cbn. destruct r; [now destruct ws|reflexivity]. Qed.

(** The panther assets are the configured directory's components followed
    by [images], [panther] and the file name. *)
Lemma panther_asset (dir file : string) :
  String.prefix "/" file = false →
  Path.parts (Path.of_string file) = [file] →
  Path.str (Path.of_string dir /p "images" /p "panther" /p file)
  = Path.root (Path.of_string dir)
    ++ String.concat "/"
         (Path.parts (Path.of_string dir) ++ ["images"; "panther"; file]).
Proof.
  intros Hrel Hparts.
  rewrite !truediv_component by (reflexivity || assumption).
  cbn [Path.root Path.parts]. rewrite str_nonempty.
  now rewrite <- !app_assoc.
Qed.

(** C1. [choose_image] builds the two candidates header.png and badge.png
    under [assets_dir/images/panther], wraps them in a [LocalProvider] and
    returns its fetch result: the header path, the attribution
    "Local asset" and no url, whatever the topic and the configuration. *)
Theorem choose_image_spec (topic : string) (cfg : AppConfig) :
  candidate_assets cfg = [header_asset cfg; badge_asset cfg]
  ∧ choose_image topic cfg
    = fetch (mkLocalProvider (candidate_assets cfg)) (ImageRequest_of_prompt topic)
  ∧ choose_image topic cfg
    = {| url := None;
         path := Some (header_asset cfg);
         attribution := Some "Local asset" |}
  ∧ header_asset cfg
    = Path.root (Path.of_string (assets_dir cfg))
      ++ String.concat "/"
           (Path.parts (Path.of_string (assets_dir cfg))
            ++ ["images"; "panther"; "header.png"])
  ∧ badge_asset cfg
    = Path.root (Path.of_string (assets_dir cfg))
      ++ String.concat "/"
           (Path.parts (Path.of_string (assets_dir cfg))
            ++ ["images"; "panther"; "badge.png"]).
Proof.
  split; [reflexivity|]. split; [reflexivity|]. split.
  - unfold choose_image. now rewrite fetch_local.
  - split; now apply panther_asset.
Qed.

Example choose_image_default :
  choose_image "field trip" (AppConfig_of_env ∅)
  = {| url := None;
       path := Some "assets/images/panther/header.png";
       attribution := Some "Local asset" |}.
Proof. vm_compute. reflexivity. Qed.

(** C9. The topic has no influence on [choose_image]: two topics give the
    same result under one configuration, and a configuration matters only
    through its [assets_dir]. *)
Theorem choose_image_topic_independent (cfg : AppConfig) (t1 t2 : string) :
  choose_image t1 cfg = choose_image t2 cfg
  ∧ ∀ cfg' : AppConfig,
      assets_dir cfg' = assets_dir cfg → choose_image t1 cfg' = choose_image t2 cfg.
Proof.
  split.
  - unfold choose_image. now rewrite !fetch_local.
  - intros cfg' Hdir.
    unfold choose_image, candidate_assets, header_asset, badge_asset.
    rewrite Hdir. now rewrite !fetch_local.
Qed.

(** ** The content loader *)

Section ContentProperties.

Variable json_loads : string → option value.
Variable yaml_safe_load : string → option value.

Local Abbreviation read := (read_document json_loads yaml_safe_load).
Local Abbreviation load := (load_content json_loads yaml_safe_load).

Lemma or_chain_first_truthy (d : gmap string value) (k a : string) :
  dict_get d k `or` dict_get d a `or` VList [] = first_truthy_grade d k a.
Proof.
  unfold first_truthy_grade, truthy_at, dict_get, py_or.
  destruct (d !! k) as [v|]; cbv [default from_option id].
  - destruct (truthy v) eqn:Hv; [now rewrite Hv|].
    destruct (d !! a) as [w|]; [now destruct (truthy w)|reflexivity].
  - change (truthy VNone) with false. cbv iota.
    destruct (d !! a) as [w|]; [now destruct (truthy w)|reflexivity].
Qed.

(** What [out] holds under each of its keys. *)
Lemma normalize_grade (d : gmap string value) (a k : string) :
  (a, k) ∈ GradeKeys →
  normalize d !! k = Some (dict_get d k `or` dict_get d a `or` VList []).
Proof.
  unfold GradeKeys. intros H.
  repeat (apply elem_of_cons in H as [[= -> ->]|H]; [reflexivity|]).
  now apply elem_of_nil in H.
Qed.

Lemma normalize_plain (d : gmap string value) (k : string) :
  k ∈ plain_fields →
  normalize d !! k = Some (dict_get_default d k (VList [])).
Proof.
  unfold plain_fields. intros H.
  repeat (apply elem_of_cons in H as [->|H]; [reflexivity|]).
  now apply elem_of_nil in H.
Qed.

Lemma normalize_week (d : gmap string value) :
  normalize d !! "week" = Some (dict_get d "week" `or` VStr "This Week").
Proof. reflexivity. Qed.

Lemma normalize_date (d : gmap string value) :
  normalize d !! "date" = Some (dict_get d "date").
Proof. reflexivity. Qed.

(** The loader accepts exactly the files that parse to a dictionary. *)
Lemma load_content_Ok (fs : filesystem) (path : string) (out : gmap string value) :
  load fs path = Ok out ↔
  ∃ d, read fs path = Ok (VDict d) ∧ out = normalize d.
Proof.
  unfold load_content. split.
  - destruct (read fs path) as [data|e]; cbn; [|discriminate].
    destruct data; cbn; try discriminate.
    intros [= <-]. eauto.
  - intros (d & -> & ->). reflexivity.
Qed.

Lemma load_content_parsed (fs : filesystem) (path : string) (d : gmap string value) :
  read fs path = Ok (VDict d) → load fs path = Ok (normalize d).
Proof. intros H. apply load_content_Ok. eauto. Qed.

Lemma normalize_empty : normalize ∅ = default_content.
Proof. reflexivity. Qed.

Lemma exists_false (fs : filesystem) (p : Path.t) :
  exists_ fs p = Ok false ↔ fs !! Path.str p = None.
Proof.
  unfold exists_. destruct (fs !! Path.str p) as [[| | |]|]; split; congruence.
Qed.

Lemma exists_refused (fs : filesystem) (p : Path.t) (errno : Z) :
  exists_ fs p = Raise (OSError errno) ↔ fs !! Path.str p = Some (Refused errno).
Proof.
  unfold exists_. destruct (fs !! Path.str p) as [[| | |]|]; split; congruence.
Qed.

(** A missing path stops the loader at its first test. *)
Lemma read_document_missing (fs : filesystem) (path : string) :
  exists_ fs (Path.of_string path) = Ok false →
  read fs path = Raise (FileNotFoundError (Path.str (Path.of_string path))).
Proof. intros H. unfold read_document. now rewrite H. Qed.

(** So does a path the operating system refuses to examine. *)
Lemma read_document_refused (fs : filesystem) (path : string) (errno : Z) :
  fs !! Path.str (Path.of_string path) = Some (Refused errno) →
  read fs path = Raise (OSError errno).
Proof. intros H. unfold read_document, exists_. now rewrite H. Qed.

(** A readable file goes to the parser its extension selects. *)
Lemma read_document_file (fs : filesystem) (path text : string) :
  fs !! Path.str (Path.of_string path) = Some (File text) →
  read fs path =
    if bool_decide (lower (Path.suffix (Path.of_string path)) ∈ [".yaml"; ".yml"])
    then v ← or_raise YAMLError (yaml_safe_load text); Ok (v `or` VDict ∅)
    else or_raise JSONDecodeError (json_loads (text `or` "{}")).
Proof.
  intros H. unfold read_document, exists_, read_text. rewrite H. reflexivity.
Qed.

(** Only the existence test reports a missing file. *)
Lemma read_document_not_found (fs : filesystem) (path : string) (e : exn) :
  read fs path = Raise e → is_not_found e = true →
  fs !! Path.str (Path.of_string path) = None.
Proof.
  unfold read_document, exists_, read_text.
  destruct (fs !! Path.str (Path.of_string path)) as [[|text| |errno]|];
    cbn; try (intros [= <-]; discriminate); [|reflexivity].
  case_bool_decide.
  - destruct (yaml_safe_load text); cbn; intros [= <-]; discriminate.
  - destruct (json_loads (text `or` "{}")); cbn; intros [= <-]; discriminate.
Qed.

Lemma load_content_Raise (fs : filesystem) (path : string) (e : exn) :
  load fs path = Raise e →
  read fs path = Raise e ∨ e = AttributeError.
Proof.
  unfold load_content. destruct (read fs path) as [data|e']; cbn.
  - destruct data; cbn; intros [= <-]; now right.
  - intros [= <-]. now left.
Qed.

End ContentProperties.

(** ** The grade rule *)

Lemma first_truthy_grade_sequence (d : gmap string value) (k a : string) :
  sequence_or_falsy (d !! k) = true →
  sequence_or_falsy (d !! a) = true →
  ∃ items, first_truthy_grade d k a = VList items.
Proof.
  unfold first_truthy_grade, truthy_at, sequence_or_falsy.
  destruct (d !! k) as [v|]; destruct (d !! a) as [w|].
  all: try destruct (truthy v) eqn:Hv; try destruct (truthy w) eqn:Hw.
  all: rewrite ?orb_false_r, ?orb_true_r.
  all: try destruct v; try destruct w; cbn; try discriminate; eauto.
Qed.

Lemma dict_get_default_sequence (d : gmap string value) (k : string) :
  sequence_or_absent (d !! k) = true →
  ∃ items, dict_get_default d k (VList []) = VList items.
Proof.
  unfold dict_get_default, sequence_or_absent.
  destruct (d !! k) as [[]|]; cbn; try discriminate; eauto.
Qed.

Lemma first_truthy_grade_falsy_canonical (d : gmap string value) (k a : string)
    (v : value) :
  d !! k = Some v → truthy v = false →
  first_truthy_grade d k a = default (VList []) (truthy_at d a).
Proof.
  intros Hk Hv. unfold first_truthy_grade, truthy_at at 1. rewrite Hk, Hv.
  now destruct (truthy_at d a).
Qed.

Lemma first_truthy_grade_falsy_alias (d : gmap string value) (k a : string)
    (w : value) :
  d !! a = Some w → truthy w = false →
  first_truthy_grade d k a = default (VList []) (truthy_at d k).
Proof.
  intros Ha Hw. unfold first_truthy_grade, truthy_at at 2. rewrite Ha, Hw.
  now destruct (truthy_at d k).
Qed.

(** ** What the specification says of the loader *)

Section ContentClaims.

Variable json_loads : string → option value.
Variable yaml_safe_load : string → option value.
Variable render_newsletter : gmap string value → AppConfig → option string.
Variable env : gmap string string.

Local Abbreviation read := (read_document json_loads yaml_safe_load).
Local Abbreviation load := (load_content json_loads yaml_safe_load).
Local Abbreviation gen := (generate json_loads yaml_safe_load render_newsletter env).

(** C3, amended.  For a document [d] the loader accepts and each grade
    field, the loader takes the canonical key's value when that key is
    present with a truthy value, else the alias key's value when the
    alias is present with a truthy value, else the empty sequence: the
    canonical key has priority whenever its value is truthy. *)
Theorem grade_fields_first_truthy (fs : filesystem) (path : string)
    (d : gmap string value) :
  read fs path = Ok (VDict d) →
  ∃ out, load fs path = Ok out
    ∧ Forall (fun '(alias, canonical) =>
                out !! canonical = Some (first_truthy_grade d canonical alias))
             GradeKeys.
Proof.
  intros Hread. exists (normalize d). split.
  - now apply load_content_parsed.
  - unfold GradeKeys. repeat constructor.
    all: rewrite <- or_chain_first_truthy; reflexivity.
Qed.

(** C4.  Two documents that differ only in that one has [v] under a
    canonical grade key and the other has [v] under the matching alias
    load to the same WeeklyContent ([v] any value, a sequence of grade
    items in particular). *)
Theorem canonical_alias_interchangeable (fs : filesystem) (path1 path2 : string)
    (base : gmap string value) (alias canonical : string) (v : value) :
  (alias, canonical) ∈ GradeKeys →
  base !! canonical = None →
  base !! alias = None →
  read fs path1 = Ok (VDict (<[canonical := v]> base)) →
  read fs path2 = Ok (VDict (<[alias := v]> base)) →
  ∃ out, load fs path1 = Ok out ∧ load fs path2 = Ok out.
Proof.
  intros Hpair Hc Ha H1 H2.
  exists (normalize (<[canonical := v]> base)). split.
  - now apply load_content_parsed.
  - rewrite (load_content_parsed _ _ _ _ _ H2). f_equal.
    unfold GradeKeys in Hpair.
    repeat (apply elem_of_cons in Hpair as [[= -> ->]|Hpair];
      [ unfold normalize; rewrite !or_chain_first_truthy;
        unfold first_truthy_grade, truthy_at, dict_get, dict_get_default;
        rewrite !lookup_insert_eq; rewrite !lookup_insert_ne by done;
        rewrite ?Hc, ?Ha; reflexivity |]).
    now apply elem_of_nil in Hpair.
Qed.

(** C5, amended.  The record the loader returns always has the six keys
    grade6, grade7, grade8, announcements, events and achievements,
    whichever keys or aliases the document used.  A grade field is a
    (possibly empty) sequence whenever the values the document has under
    its canonical key and under its alias are each a sequence or falsy;
    announcements, events and achievements are each a (possibly empty)
    sequence whenever the document omits the key or maps it to a
    sequence. *)
Theorem sequence_fields_present (fs : filesystem) (path : string)
    (out : gmap string value) :
  load fs path = Ok out →
  Forall (fun k => is_Some (out !! k)) sequence_fields
  ∧ ∃ d, read fs path = Ok (VDict d)
      ∧ Forall (fun '(alias, canonical) =>
                  sequence_or_falsy (d !! canonical) = true →
                  sequence_or_falsy (d !! alias) = true →
                  ∃ items, out !! canonical = Some (VList items))
               GradeKeys
      ∧ Forall (fun k =>
                  sequence_or_absent (d !! k) = true →
                  ∃ items, out !! k = Some (VList items))
               plain_fields.
Proof.
  intros Hload. apply load_content_Ok in Hload as (d & Hread & ->).
  split; [|exists d; split; [exact Hread|split]].
  - unfold sequence_fields. repeat constructor; eexists; reflexivity.
  - unfold GradeKeys. repeat constructor.
    all: intros Hc Ha.
    all: erewrite normalize_grade by (unfold GradeKeys; repeat constructor).
    all: rewrite or_chain_first_truthy.
    all: destruct (first_truthy_grade_sequence _ _ _ Hc Ha) as [items ->].
    all: eauto.
  - unfold plain_fields. repeat constructor.
    all: intros Hk.
    all: rewrite normalize_plain by (unfold plain_fields; repeat constructor).
    all: destruct (dict_get_default_sequence _ _ Hk) as [items ->].
    all: eauto.
Qed.

(** C7.  A document without the week key loads to a record whose week is
    the placeholder "This Week". *)
Theorem week_defaults_to_placeholder (fs : filesystem) (path : string)
    (d : gmap string value) :
  read fs path = Ok (VDict d) →
  d !! "week" = None →
  ∃ out, load fs path = Ok out ∧ out !! "week" = Some (VStr "This Week").
Proof.
  intros Hread Hweek. exists (normalize d). split.
  - now apply load_content_parsed.
  - rewrite normalize_week. unfold dict_get. rewrite Hweek. reflexivity.
Qed.

(** C10, amended.  A null under announcements, events or achievements is
    returned as it is.  A falsy value under a grade key is not kept: the
    field is the truthy value of the grade's other key when there is
    one, and the empty sequence otherwise.  A falsy week is replaced by
    the placeholder "This Week". *)
Theorem null_kept_falsy_replaced (fs : filesystem) (path : string)
    (d : gmap string value) :
  read fs path = Ok (VDict d) →
  ∃ out, load fs path = Ok out
    ∧ Forall (fun k => d !! k = Some VNone → out !! k = Some VNone)
             plain_fields
    ∧ Forall (fun '(alias, canonical) =>
                (∀ v, d !! canonical = Some v → truthy v = false →
                   out !! canonical
                   = Some (default (VList []) (truthy_at d alias)))
                ∧ (∀ w, d !! alias = Some w → truthy w = false →
                   out !! canonical
                   = Some (default (VList []) (truthy_at d canonical))))
             GradeKeys
    ∧ (∀ v, d !! "week" = Some v → truthy v = false →
         out !! "week" = Some (VStr "This Week")).
Proof.
  intros Hread. exists (normalize d).
  split; [now apply load_content_parsed|]. split; [|split].
  - unfold plain_fields. repeat constructor.
    all: intros Hk.
    all: rewrite normalize_plain by (unfold plain_fields; repeat constructor).
    all: unfold dict_get_default; rewrite Hk; reflexivity.
  - unfold GradeKeys. repeat constructor.
    all: intros v Hv Hfalsy.
    all: erewrite normalize_grade by (unfold GradeKeys; repeat constructor).
    all: rewrite or_chain_first_truthy; f_equal.
    all: first [ now apply (first_truthy_grade_falsy_canonical _ _ _ v)
               | now apply (first_truthy_grade_falsy_alias _ _ _ v) ].
  - intros v Hv Hfalsy. rewrite normalize_week.
    unfold dict_get, py_or. rewrite Hv. cbn [default from_option id].
    now rewrite Hfalsy.
Qed.

(** C6, amended.  The loader fails with a NotFound-class error exactly
    when its existence test answers that the path is not there; it then
    returns no WeeklyContent, and the generation run that called it ends
    with that error and the filesystem as it found it.  Where the
    operating system refuses the test (a name longer than it allows, for
    one) the loader fails with that OSError, which is no NotFound-class
    error, and again nothing is returned and nothing written. *)
Theorem load_content_not_found_iff (fs : filesystem) (path out_dir : string)
    (open_after : bool) :
  ((∃ e, load fs path = Raise e ∧ is_not_found e = true)
   ↔ exists_ fs (Path.of_string path) = Ok false)
  ∧ (exists_ fs (Path.of_string path) = Ok false →
     load fs path = Raise (FileNotFoundError (Path.str (Path.of_string path)))
     ∧ (∀ out, load fs path ≠ Ok out)
     ∧ gen fs path out_dir open_after
       = (fs, Raise (FileNotFoundError (Path.str (Path.of_string path)))))
  ∧ (∀ errno, exists_ fs (Path.of_string path) = Raise (OSError errno) →
     load fs path = Raise (OSError errno)
     ∧ is_not_found (OSError errno) = false
     ∧ (∀ out, load fs path ≠ Ok out)
     ∧ gen fs path out_dir open_after = (fs, Raise (OSError errno))).
Proof.
  assert (Hmissing : exists_ fs (Path.of_string path) = Ok false →
    load fs path = Raise (FileNotFoundError (Path.str (Path.of_string path)))).
  { intros H. unfold load_content. now rewrite read_document_missing. }
  assert (Hrefused : ∀ errno,
    exists_ fs (Path.of_string path) = Raise (OSError errno) →
    load fs path = Raise (OSError errno)).
  { intros errno H. apply exists_refused in H. unfold load_content.
    now rewrite (read_document_refused _ _ _ _ _ H). }
  split; [split|split].
  - intros (e & Hload & Hnf). apply exists_false.
    apply load_content_Raise in Hload as [Hread| ->]; [|discriminate].
    now apply (read_document_not_found _ _ _ _ _ Hread).
  - intros H. eexists. split; [now apply Hmissing|reflexivity].
  - intros H. split; [now apply Hmissing|]. split.
    + intros out. rewrite (Hmissing H). discriminate.
    + unfold generate. now rewrite (Hmissing H).
  - intros errno H. split; [now apply Hrefused|]. split; [reflexivity|]. split.
    + intros out. rewrite (Hrefused _ H). discriminate.
    + unfold generate. now rewrite (Hrefused _ H).
Qed.

(** C8.  An existing file with empty content loads, whatever its
    extension, to the fully defaulted record: six empty sequences, the
    placeholder week and no date.  The extensions .yaml and .yml, in any
    letter case, send a file's text to the YAML parser, where a falsy
    document counts as the empty one; every other extension sends it to
    the JSON parser, which is given the empty object for an empty
    text. *)
Theorem load_content_empty_file (fs : filesystem) (path : string) :
  json_loads "{}" = Some (VDict ∅) →
  yaml_safe_load "" = Some VNone →
  fs !! Path.str (Path.of_string path) = Some (File "") →
  load fs path = Ok default_content
  ∧ ∀ (fs' : filesystem) (text : string),
      fs' !! Path.str (Path.of_string path) = Some (File text) →
      read fs' path =
        if bool_decide (lower (Path.suffix (Path.of_string path)) = ".yaml"
                        ∨ lower (Path.suffix (Path.of_string path)) = ".yml")
        then v ← or_raise YAMLError (yaml_safe_load text); Ok (v `or` VDict ∅)
        else or_raise JSONDecodeError (json_loads (text `or` "{}")).
Proof.
  intros Hjson Hyaml Hfile. split.
  - rewrite <- normalize_empty. apply load_content_parsed.
    rewrite (read_document_file _ _ _ _ _ Hfile).
    case_bool_decide.
    + rewrite Hyaml. reflexivity.
    + change ("" `or` "{}") with "{}". rewrite Hjson. reflexivity.
  - intros fs' text Hfile'.
    rewrite (read_document_file _ _ _ _ _ Hfile').
    apply (f_equal (fun b : bool => if b then _ else _)).
    apply bool_decide_ext. rewrite !elem_of_cons, elem_of_nil. tauto.
Qed.

End ContentClaims.

(** ** The loader on sample documents *)

Example load_alias_document :
  sample_load sample_fs "data/alias.yml"
  = Ok (list_to_map
      [ ("grade6", VList [VStr "a"]); ("grade7", VList []); ("grade8", VList []);
        ("announcements", VList []); ("events", VList []);
        ("achievements", VList []);
        ("week", VStr "This Week"); ("date", VNone) ]).
Proof. vm_compute. reflexivity. Qed.

Example load_rejects :
  map (sample_load sample_fs) ["data/missing.yml"; "data"]
  = [Raise (FileNotFoundError "data/missing.yml"); Raise (IsADirectoryError "data")].
Proof. vm_compute. reflexivity. Qed.

Lemma grade_fields_first_truthy_witness :
  sample_read sample_fs "data/alias.yml" = Ok (VDict alias_document)
  ∧ ∃ out, sample_load sample_fs "data/alias.yml" = Ok out
      ∧ Forall (fun '(alias, canonical) =>
                  out !! canonical
                  = Some (first_truthy_grade alias_document canonical alias))
               GradeKeys.
Proof.
  split; [vm_compute; reflexivity|].
  apply (grade_fields_first_truthy sample_json_loads sample_yaml_safe_load
           sample_fs "data/alias.yml" alias_document).
  vm_compute; reflexivity.
Defined.

(** C3 as stated fails.  The grade rule in the specification's words
    breaks on a document whose canonical key is present with an empty
    sequence while the alias holds items: the loader returns the alias's
    items. *)
Lemma canonical_presence_counterexample :
  sample_read sample_fs "data/shadowed.yml" = Ok (VDict shadowed_document)
  ∧ shadowed_document !! "grade6" = Some (VList [])
  ∧ spec_grade_value shadowed_document "grade6" "6th" = VList []
  ∧ ∃ out, sample_load sample_fs "data/shadowed.yml" = Ok out
      ∧ out !! "grade6" = Some (VList [VStr "a"])
      ∧ out !! "grade6" ≠ Some (spec_grade_value shadowed_document "grade6" "6th").
Proof.
  split; [vm_compute; reflexivity|].
  split; [vm_compute; reflexivity|].
  split; [vm_compute; reflexivity|].
  eexists. split; [vm_compute; reflexivity|].
  split; [vm_compute; reflexivity|].
  vm_compute. discriminate.
Qed.

Lemma canonical_alias_interchangeable_witness :
  ("6th", "grade6") ∈ GradeKeys
  ∧ sample_read sample_fs "data/canonical.yml"
    = Ok (VDict (<["grade6" := VList [VStr "a"]]> ∅))
  ∧ sample_read sample_fs "data/alias.yml"
    = Ok (VDict (<["6th" := VList [VStr "a"]]> ∅))
  ∧ ∃ out, sample_load sample_fs "data/canonical.yml" = Ok out
      ∧ sample_load sample_fs "data/alias.yml" = Ok out.
Proof.
  assert (Hpair : ("6th", "grade6") ∈ GradeKeys) by (unfold GradeKeys; apply elem_of_cons; now left).
  split; [exact Hpair|].
  split; [vm_compute; reflexivity|].
  split; [vm_compute; reflexivity|].
  apply (canonical_alias_interchangeable sample_json_loads sample_yaml_safe_load
           sample_fs "data/canonical.yml" "data/alias.yml" ∅
           "6th" "grade6" (VList [VStr "a"]) Hpair).
  - reflexivity.
  - reflexivity.
  - vm_compute; reflexivity.
  - vm_compute; reflexivity.
Defined.

Lemma sequence_fields_present_witness :
  sample_load sample_fs "data/alias.yml" = Ok (normalize alias_document)
  ∧ Forall (fun k => is_Some (normalize alias_document !! k)) sequence_fields.
Proof.
  assert (Hload : sample_load sample_fs "data/alias.yml"
                  = Ok (normalize alias_document)) by (vm_compute; reflexivity).
  split; [exact Hload|].
  exact (proj1 (sequence_fields_present sample_json_loads sample_yaml_safe_load
                  sample_fs "data/alias.yml" (normalize alias_document) Hload)).
Defined.

(** C5 as stated fails.  A document that maps announcements to null is
    accepted, and its announcements field is null; a document with a
    number under grade6 is accepted, and its grade6 field is that number.
    Neither field is a sequence. *)
Lemma sequence_fields_counterexample :
  (∃ out, sample_load sample_fs "data/null.yml" = Ok out
     ∧ out !! "announcements" = Some VNone
     ∧ ¬ ∃ items, out !! "announcements" = Some (VList items))
  ∧ (∃ out, sample_load sample_fs "data/scalar.yml" = Ok out
       ∧ out !! "grade6" = Some (VInt 5)
       ∧ ¬ ∃ items, out !! "grade6" = Some (VList items)).
Proof.
  split.
  - eexists. split; [vm_compute; reflexivity|].
    split; [vm_compute; reflexivity|].
    intros [items H]. vm_compute in H. discriminate H.
  - eexists. split; [vm_compute; reflexivity|].
    split; [vm_compute; reflexivity|].
    intros [items H]. vm_compute in H. discriminate H.
Qed.

Lemma week_defaults_to_placeholder_witness :
  sample_read sample_fs "data/alias.yml" = Ok (VDict alias_document)
  ∧ alias_document !! "week" = None
  ∧ ∃ out, sample_load sample_fs "data/alias.yml" = Ok out
      ∧ out !! "week" = Some (VStr "This Week").
Proof.
  split; [vm_compute; reflexivity|].
  split; [vm_compute; reflexivity|].
  apply (week_defaults_to_placeholder sample_json_loads sample_yaml_safe_load
           sample_fs "data/alias.yml" alias_document).
  - vm_compute; reflexivity.
  - vm_compute; reflexivity.
Defined.

Lemma load_content_empty_file_witness :
  sample_json_loads "{}" = Some (VDict ∅)
  ∧ sample_yaml_safe_load "" = Some VNone
  ∧ sample_fs !! Path.str (Path.of_string "data/empty.yml") = Some (File "")
  ∧ sample_load sample_fs "data/empty.yml" = Ok default_content.
Proof.
  split; [reflexivity|]. split; [reflexivity|].
  split; [vm_compute; reflexivity|].
  apply (load_content_empty_file sample_json_loads sample_yaml_safe_load
           sample_fs "data/empty.yml").
  - reflexivity.
  - reflexivity.
  - vm_compute; reflexivity.
Defined.

Example load_empty_json :
  sample_load sample_fs "data/empty.json" = Ok default_content.
Proof. vm_compute. reflexivity. Qed.

Lemma null_kept_falsy_replaced_witness :
  sample_read sample_fs "data/null.yml" = Ok (VDict null_announcements_document)
  ∧ ∃ out, sample_load sample_fs "data/null.yml" = Ok out
      ∧ (null_announcements_document !! "announcements" = Some VNone →
         out !! "announcements" = Some VNone).
Proof.
  split; [vm_compute; reflexivity|].
  destruct (null_kept_falsy_replaced sample_json_loads sample_yaml_safe_load
              sample_fs "data/null.yml" null_announcements_document)
    as (out & Hload & Hplain & _).
  - vm_compute; reflexivity.
  - exists out. split; [exact Hload|].
    unfold plain_fields in Hplain. exact (Forall_inv Hplain).
Defined.

(** C10 as stated fails.  A null under the canonical grade key is not
    replaced by the empty sequence when the alias holds items: the field
    is the alias's items. *)
Lemma falsy_grade_default_counterexample :
  sample_read sample_fs "data/null_grade.yml" = Ok (VDict null_grade_document)
  ∧ null_grade_document !! "grade6" = Some VNone
  ∧ ∃ out, sample_load sample_fs "data/null_grade.yml" = Ok out
      ∧ out !! "grade6" = Some (VList [VStr "a"])
      ∧ out !! "grade6" ≠ Some (VList []).
Proof.
  split; [vm_compute; reflexivity|].
  split; [vm_compute; reflexivity|].
  eexists. split; [vm_compute; reflexivity|].
  split; [vm_compute; reflexivity|].
  vm_compute. discriminate.
Qed.

(** * Further properties of the loader *)

Lemma dom_normalize (d : gmap string value) : dom (normalize d) = content_keys.
Proof. unfold normalize, content_keys. rewrite dom_list_to_map_L. reflexivity. Qed.

Lemma first_truthy_grade_cases (d : gmap string value) (k a : string) :
  truthy (first_truthy_grade d k a) = true ∨ first_truthy_grade d k a = VList [].
Proof.
  unfold first_truthy_grade, truthy_at.
  destruct (d !! k) as [v|]; [destruct (truthy v) eqn:Hv; [now left|]|].
  all: destruct (d !! a) as [w|]; [destruct (truthy w) eqn:Hw; [now left|]|].
  all: now right.
Qed.

Lemma or_default_truthy (v dflt : value) :
  truthy dflt = true → truthy (v `or` dflt) = true.
Proof. intros H. unfold py_or. now destruct (truthy v) eqn:Hv. Qed.

Lemma or_self (v : value) :
  truthy v = true ∨ v = VList [] → v `or` VNone `or` VList [] = v.
Proof.
  intros [Hv| ->].
  - unfold py_or. now rewrite !Hv.
  - reflexivity.
Qed.

(** The record, field by field. *)
Lemma normalize_unfold (d : gmap string value) :
  normalize d =
  list_to_map
    [ ("grade6", first_truthy_grade d "grade6" "6th");
      ("grade7", first_truthy_grade d "grade7" "7th");
      ("grade8", first_truthy_grade d "grade8" "8th");
      ("announcements", dict_get_default d "announcements" (VList []));
      ("events", dict_get_default d "events" (VList []));
      ("achievements", dict_get_default d "achievements" (VList []));
      ("week", dict_get d "week" `or` VStr "This Week");
      ("date", dict_get d "date") ].
Proof. unfold normalize. now rewrite !or_chain_first_truthy. Qed.

Lemma normalize_ext (d1 d2 : gmap string value) :
  (∀ k, k ∈ read_keys → d1 !! k = d2 !! k) → normalize d1 = normalize d2.
Proof.
  intros Hagree. rewrite !normalize_unfold.
  unfold first_truthy_grade, truthy_at, dict_get, dict_get_default.
  rewrite !Hagree by (unfold read_keys; repeat constructor).
  reflexivity.
Qed.

Lemma normalize_idempotent (d : gmap string value) :
  normalize (normalize d) = normalize d.
Proof.
  unfold normalize at 1.
  unfold dict_get, dict_get_default.
  rewrite (normalize_grade d "6th" "grade6"), (normalize_grade d "7th" "grade7"),
    (normalize_grade d "8th" "grade8") by (unfold GradeKeys; repeat constructor).
  rewrite (normalize_plain d "announcements"), (normalize_plain d "events"),
    (normalize_plain d "achievements") by (unfold plain_fields; repeat constructor).
  rewrite normalize_week, normalize_date.
  change (normalize d !! "6th") with (@None value).
  change (normalize d !! "7th") with (@None value).
  change (normalize d !! "8th") with (@None value).
  cbn [default from_option id].
  rewrite !or_chain_first_truthy.
  rewrite !or_self by apply first_truthy_grade_cases.
  assert (Hweek : ∀ v : value, (v `or` VStr "This Week") `or` VStr "This Week"
                               = v `or` VStr "This Week").
  { intros v. unfold py_or. destruct (truthy v) eqn:Hv; [now rewrite Hv|reflexivity]. }
  rewrite Hweek. symmetry. apply normalize_unfold.
Qed.

Lemma normalize_alias_shadowed (d : gmap string value) (alias canonical : string)
    (v w : value) :
  (alias, canonical) ∈ GradeKeys →
  d !! canonical = Some v → truthy v = true →
  normalize (<[alias := w]> d) = normalize d.
Proof.
  intros Hpair Hc Hv. unfold GradeKeys in Hpair.
  repeat (apply elem_of_cons in Hpair as [[= -> ->]|Hpair];
    [ rewrite !normalize_unfold;
      unfold first_truthy_grade, truthy_at, dict_get, dict_get_default;
      rewrite ?lookup_insert_eq; rewrite !lookup_insert_ne by done;
      rewrite ?Hc, ?Hv; reflexivity |]).
  now apply elem_of_nil in Hpair.
Qed.

Section LoaderBehaviour.

Variable json_loads : string → option value.
Variable yaml_safe_load : string → option value.

Local Abbreviation read := (read_document json_loads yaml_safe_load).
Local Abbreviation load := (load_content json_loads yaml_safe_load).

(** X1.  The record the loader returns has exactly the eight keys grade6,
    grade7, grade8, announcements, events, achievements, week and date:
    the alias keys and every other key of the document are dropped. *)
Theorem loaded_record_keys (fs : filesystem) (path : string)
    (out : gmap string value) :
  load fs path = Ok out →
  dom out = content_keys ∧ ∀ k, k ∉ content_keys → out !! k = None.
Proof.
  intros Hload. apply load_content_Ok in Hload as (d & _ & ->).
  split; [apply dom_normalize|].
  intros k Hk. apply not_elem_of_dom. now rewrite dom_normalize.
Qed.

(** X2.  Normalisation is idempotent: a record the loader returned, taken
    as a document again, normalises to itself. *)
Theorem loaded_record_is_normal (fs : filesystem) (path : string)
    (out : gmap string value) :
  load fs path = Ok out → normalize out = out.
Proof.
  intros Hload. apply load_content_Ok in Hload as (d & _ & ->).
  apply normalize_idempotent.
Qed.

(** X3.  The loader reads the document through eleven keys only: two
    documents that agree on the three canonical grade keys, the three
    aliases, announcements, events, achievements, week and date load to
    the same record, whatever else they hold. *)
Theorem unread_keys_ignored (fs : filesystem) (path1 path2 : string)
    (d1 d2 : gmap string value) :
  read fs path1 = Ok (VDict d1) →
  read fs path2 = Ok (VDict d2) →
  (∀ k, k ∈ read_keys → d1 !! k = d2 !! k) →
  ∃ out, load fs path1 = Ok out ∧ load fs path2 = Ok out.
Proof.
  intros H1 H2 Hagree. exists (normalize d1). split.
  - now apply load_content_parsed.
  - rewrite (normalize_ext d1 d2 Hagree). now apply load_content_parsed.
Qed.

(** X4.  In a loaded record the week is never null nor empty, and a grade
    field is never a falsy value other than the empty sequence. *)
Theorem week_and_grades_never_falsy (fs : filesystem) (path : string)
    (out : gmap string value) :
  load fs path = Ok out →
  (∃ w, out !! "week" = Some w ∧ truthy w = true)
  ∧ Forall (fun '(alias, canonical) =>
              ∃ g, out !! canonical = Some g
                   ∧ (truthy g = true ∨ g = VList []))
           GradeKeys.
Proof.
  intros Hload. apply load_content_Ok in Hload as (d & _ & ->). split.
  - eexists. split; [apply normalize_week|]. now apply or_default_truthy.
  - unfold GradeKeys. repeat constructor.
    all: eexists; split;
      [ erewrite normalize_grade by (unfold GradeKeys; repeat constructor);
        rewrite or_chain_first_truthy; reflexivity
      | apply first_truthy_grade_cases ].
Qed.

(** X5.  When the canonical key of a grade holds a truthy value, whatever
    the document has under the alias is ignored: adding or changing the
    alias leaves the whole record as it was. *)
Theorem alias_shadowed_by_canonical (fs : filesystem) (path1 path2 : string)
    (d : gmap string value) (alias canonical : string) (v w : value) :
  (alias, canonical) ∈ GradeKeys →
  d !! canonical = Some v →
  truthy v = true →
  read fs path1 = Ok (VDict d) →
  read fs path2 = Ok (VDict (<[alias := w]> d)) →
  ∃ out, load fs path1 = Ok out ∧ load fs path2 = Ok out
         ∧ out !! canonical = Some v.
Proof.
  intros Hpair Hc Hv H1 H2. exists (normalize d). split; [|split].
  - now apply load_content_parsed.
  - rewrite <- (normalize_alias_shadowed d alias canonical v w Hpair Hc Hv).
    now apply load_content_parsed.
  - rewrite (normalize_grade d alias canonical Hpair), or_chain_first_truthy.
    unfold first_truthy_grade, truthy_at. now rewrite Hc, Hv.
Qed.

(** X6.  In a .yaml or .yml file every falsy document (null, an empty
    list, zero, false, an empty string) counts as the empty document and
    loads to the fully defaulted record. *)
Theorem yaml_falsy_document_defaults (fs : filesystem) (path text : string)
    (v : value) :
  fs !! Path.str (Path.of_string path) = Some (File text) →
  yaml_suffix path = true →
  yaml_safe_load text = Some v →
  truthy v = false →
  load fs path = Ok default_content.
Proof.
  intros Hfile Hyaml Hparse Hv.
  rewrite <- normalize_empty. apply load_content_parsed.
  rewrite (read_document_file _ _ _ _ _ Hfile).
  unfold yaml_suffix in Hyaml. rewrite Hyaml, Hparse. cbn.
  unfold py_or. now rewrite Hv.
Qed.

(** X7.  A document that is not a dictionary is refused with an
    AttributeError: under the JSON parser every such document (null and
    lists included), under the YAML parser every truthy one. *)
Theorem non_dictionary_document_rejected (fs : filesystem) (path text : string)
    (v : value) :
  fs !! Path.str (Path.of_string path) = Some (File text) →
  is_dict v = false →
  (if yaml_suffix path
   then yaml_safe_load text = Some v ∧ truthy v = true
   else json_loads (text `or` "{}") = Some v) →
  load fs path = Raise AttributeError.
Proof.
  intros Hfile Hdict Hparse. unfold load_content.
  rewrite (read_document_file _ _ _ _ _ Hfile).
  unfold yaml_suffix in Hparse.
  destruct (bool_decide _).
  - destruct Hparse as [-> Hv]. cbn. unfold py_or. rewrite Hv.
    now destruct v.
  - rewrite Hparse. now destruct v.
Qed.

End LoaderBehaviour.

(** * Further properties of the generator *)

Lemma prefixes_snoc {A : Type} (l : list A) (x : A) :
  prefixes (l ++ [x]) = (prefixes l ++ [l ++ [x]])%list.
Proof.
  induction l as [|a l IH]; cbn; [reflexivity|].
  rewrite IH, map_app. reflexivity.
Qed.

Lemma prefixes_app {A : Type} (l1 l2 : list A) :
  prefixes (l1 ++ l2) = (prefixes l1 ++ map (app l1) (prefixes l2))%list.
Proof.
  induction l1 as [|a l1 IH]; cbn.
  - now rewrite map_id.
  - rewrite IH, map_app, map_map. reflexivity.
Qed.

(** The directories a path is made of are those that lead to it and the
    path itself. *)
Lemma ancestors_parent_dirs (p : Path.t) :
  Path.parts p ≠ [] → ancestors_and_self p = (parent_dirs p ++ [p])%list.
Proof.
  destruct p as [r ws]. cbn. intros Hws.
  unfold ancestors_and_self, parent_dirs. cbn.
  rewrite (app_removelast_last "" Hws) at 1.
  rewrite prefixes_snoc, map_app. cbn.
  now rewrite <- (app_removelast_last "" Hws).
Qed.

Lemma walk_dirs_Reached (fs : filesystem) (dirs : list Path.t) :
  walk_dirs fs dirs = Reached ↔ ∀ q, q ∈ dirs → fs !! Path.str q = Some Directory.
Proof.
  induction dirs as [|q rest IH]; cbn.
  - split; [|reflexivity]. intros _ q Hq. now apply elem_of_nil in Hq.
  - split.
    + intros Hwalk q' Hq'.
      destruct (fs !! Path.str q) as [[| | |]|] eqn:Hq; try discriminate.
      apply elem_of_cons in Hq' as [->|Hq']; [exact Hq|]. now apply IH.
    + intros Hall. rewrite (Hall q) by apply list_elem_of_here.
      apply IH. intros q' Hq'. apply Hall. now apply list_elem_of_further.
Qed.

Lemma os_mkdir_Ok (fs fs' : filesystem) (p : Path.t) :
  os_mkdir fs p = Ok fs' →
  Path.parts p ≠ []
  ∧ walk_dirs fs (parent_dirs p) = Reached
  ∧ fs !! Path.str p = None
  ∧ fs' = <[Path.str p := Directory]> fs.
Proof.
  unfold os_mkdir. destruct (Path.parts p) as [|w ws]; [discriminate|].
  destruct (walk_dirs fs (parent_dirs p)); try discriminate.
  destruct (fs !! Path.str p) as [[| | |]|]; try discriminate.
  intros [= <-]. repeat split. discriminate.
Qed.

(** [os.mkdir] fails without a trace. *)
Lemma is_dir_true (fs : filesystem) (p : Path.t) :
  is_dir fs p = Ok true →
  ∀ q, q ∈ ancestors_and_self p → fs !! Path.str q = Some Directory.
Proof.
  unfold is_dir. destruct (Path.parts p) as [|w ws] eqn:Hparts.
  - intros _ q Hq. unfold ancestors_and_self in Hq. rewrite Hparts in Hq.
    now apply elem_of_nil in Hq.
  - destruct (walk_dirs fs (parent_dirs p)) eqn:Hwalk; try discriminate.
    destruct (fs !! Path.str p) as [[| | |]|] eqn:Hp; try discriminate.
    intros _ q Hq. rewrite ancestors_parent_dirs in Hq by congruence.
    apply elem_of_app in Hq as [Hq|Hq].
    + now apply (walk_dirs_Reached fs (parent_dirs p)).
    + apply list_elem_of_singleton in Hq as ->. exact Hp.
Qed.

Lemma is_dir_of_dirs (fs : filesystem) (p : Path.t) :
  (∀ q, q ∈ ancestors_and_self p → fs !! Path.str q = Some Directory) →
  is_dir fs p = Ok true.
Proof.
  intros Hall. unfold is_dir.
  destruct (Path.parts p) as [|w ws] eqn:Hparts; [reflexivity|].
  assert (Hne : Path.parts p ≠ []) by congruence.
  rewrite (ancestors_parent_dirs p Hne) in Hall.
  assert (Hwalk : walk_dirs fs (parent_dirs p) = Reached).
  { apply walk_dirs_Reached. intros q Hq. apply Hall, elem_of_app. now left. }
  rewrite Hwalk, (Hall p); [reflexivity|].
  apply elem_of_app. right. apply list_elem_of_here.
Qed.

Lemma adds_dirs_refl (ks : list string) (fs : filesystem) : adds_dirs ks fs fs.
Proof. split; eauto. Qed.

Lemma adds_dirs_trans (ks1 ks2 ks : list string) (fs fs1 fs2 : filesystem) :
  adds_dirs ks1 fs fs1 → adds_dirs ks2 fs1 fs2 →
  (∀ k, k ∈ ks1 → k ∈ ks) → (∀ k, k ∈ ks2 → k ∈ ks) →
  adds_dirs ks fs fs2.
Proof.
  intros [Hk1 Hn1] [Hk2 Hn2] Hs1 Hs2. split.
  - eauto.
  - intros k n Hk. destruct (Hn2 k n Hk) as [H1|[-> Hin]]; [|eauto].
    destruct (Hn1 k n H1) as [H|[-> Hin]]; eauto.
Qed.

Lemma adds_dirs_insert (ks : list string) (fs : filesystem) (k : string) :
  fs !! k = None → k ∈ ks → adds_dirs ks fs (<[k := Directory]> fs).
Proof.
  intros Hnone Hin. split.
  - intros k' n Hk'. rewrite lookup_insert_ne; [exact Hk'|]. congruence.
  - intros k' n. rewrite lookup_insert. case_decide as Hkk'.
    + subst k'. intros [= <-]. now right.
    + now left.
Qed.

Lemma adds_dirs_frame (ks : list string) (fs fs' : filesystem) (k : string) :
  adds_dirs ks fs fs' → k ∉ ks → fs' !! k = fs !! k.
Proof.
  intros [Hkeep Hnew] Hk. destruct (fs' !! k) as [n|] eqn:Hfs'.
  - destruct (Hnew k n Hfs') as [H|[_ Hin]]; [now symmetry|contradiction].
  - destruct (fs !! k) as [n|] eqn:Hfs; [|reflexivity].
    apply Hkeep in Hfs. congruence.
Qed.

Lemma self_in_ancestors (p : Path.t) :
  Path.parts p ≠ [] → p ∈ ancestors_and_self p.
Proof.
  intros Hne. rewrite (ancestors_parent_dirs p Hne).
  apply elem_of_app. right. apply list_elem_of_here.
Qed.

(** [os.mkdir] adds the one directory, below directories. *)
Lemma os_mkdir_effect (fs fs' : filesystem) (p : Path.t) :
  os_mkdir fs p = Ok fs' →
  adds_dirs [Path.str p] fs fs'
  ∧ ∀ q, q ∈ ancestors_and_self p → fs' !! Path.str q = Some Directory.
Proof.
  intros Hmk. apply os_mkdir_Ok in Hmk as (Hne & Hwalk & Hnone & ->). split.
  - apply adds_dirs_insert; [exact Hnone|apply list_elem_of_here].
  - intros q Hq. rewrite lookup_insert. case_decide; [reflexivity|].
    rewrite (ancestors_parent_dirs p Hne) in Hq.
    apply elem_of_app in Hq as [Hq|Hq].
    + now apply (walk_dirs_Reached fs (parent_dirs p)).
    + apply list_elem_of_singleton in Hq as ->. contradiction.
Qed.

Lemma mkdir_exist_ok_effect (fs fs1 : filesystem) (p : Path.t) (e : exn)
    (r : result unit) :
  mkdir_exist_ok fs p e = (fs1, r) →
  fs1 = fs
  ∧ (r = Ok tt →
     ∀ q, q ∈ ancestors_and_self p → fs !! Path.str q = Some Directory).
Proof.
  unfold mkdir_exist_ok. destruct (is_dir fs p) as [[|]|e'] eqn:Hdir;
    intros [= <- <-]; (split; [reflexivity|]); try discriminate.
  intros _. now apply is_dir_true.
Qed.

Lemma mkdir_leaf_effect (fs fs1 : filesystem) (p : Path.t) (r : result unit) :
  mkdir_leaf fs p = (fs1, r) →
  adds_dirs [Path.str p] fs fs1
  ∧ (r = Ok tt →
     ∀ q, q ∈ ancestors_and_self p → fs1 !! Path.str q = Some Directory).
Proof.
  unfold mkdir_leaf. destruct (os_mkdir fs p) as [fs'|e] eqn:Hmk.
  - intros [= <- <-]. apply os_mkdir_effect in Hmk as [Hadd Hdirs].
    split; [exact Hadd|]. intros _. exact Hdirs.
  - assert (Hother : mkdir_exist_ok fs p e = (fs1, r) →
      adds_dirs [Path.str p] fs fs1
      ∧ (r = Ok tt →
         ∀ q, q ∈ ancestors_and_self p → fs1 !! Path.str q = Some Directory)).
    { intros H. apply mkdir_exist_ok_effect in H as [-> Hdirs].
      split; [apply adds_dirs_refl|exact Hdirs]. }
    destruct e; try exact Hother.
    intros [= <- <-]. split; [apply adds_dirs_refl|discriminate].
Qed.

Lemma ancestors_snoc (root : string) (ws : list string) (w : string) :
  ancestors_and_self (Path.mk root (ws ++ [w]))
  = (ancestors_and_self (Path.mk root ws) ++ [Path.mk root (ws ++ [w])])%list.
Proof.
  unfold ancestors_and_self. cbn. now rewrite prefixes_snoc, map_app.
Qed.

(** What [mkdir] leaves, whether it succeeds or not: directories added
    along the path and nothing else touched; on success every directory
    of the path is there. *)
Lemma mkdir_rec_effect (root : string) (rparts : list string)
    (fs fs1 : filesystem) (r : result unit) :
  mkdir_rec root rparts fs = (fs1, r) →
  adds_dirs (map Path.str (ancestors_and_self (Path.mk root (rev rparts)))) fs fs1
  ∧ (r = Ok tt →
     ∀ q, q ∈ ancestors_and_self (Path.mk root (rev rparts)) →
          fs1 !! Path.str q = Some Directory).
Proof.
  revert fs fs1 r. induction rparts as [|w rparent IH]; intros fs fs1 r.
  - cbn [mkdir_rec rev].
    destruct (os_mkdir fs (Path.mk root [])) as [fs'|e] eqn:Hmk.
    + apply os_mkdir_Ok in Hmk as (Hne & _). now cbn in Hne.
    + assert (Hother : mkdir_exist_ok fs (Path.mk root []) e = (fs1, r) →
        adds_dirs (map Path.str (ancestors_and_self (Path.mk root []))) fs fs1
        ∧ (r = Ok tt →
           ∀ q, q ∈ ancestors_and_self (Path.mk root []) →
                fs1 !! Path.str q = Some Directory)).
      { intros H. apply mkdir_exist_ok_effect in H as [-> Hdirs].
        split; [apply adds_dirs_refl|exact Hdirs]. }
      destruct e; try exact Hother.
      intros [= <- <-]. split; [apply adds_dirs_refl|discriminate].
  - cbn [mkdir_rec]. set (self := Path.mk root (rev (w :: rparent))).
    assert (Hself : self ∈ ancestors_and_self self).
    { apply self_in_ancestors. unfold self. cbn. now destruct (rev rparent). }
    destruct (os_mkdir fs self) as [fs'|e] eqn:Hmk.
    + intros [= <- <-]. apply os_mkdir_effect in Hmk as [Hadd Hdirs]. split.
      * apply (adds_dirs_trans [] [Path.str self] _ fs fs fs');
          [apply adds_dirs_refl|exact Hadd| |].
        -- intros k Hk. now apply elem_of_nil in Hk.
        -- intros k Hk. apply list_elem_of_singleton in Hk as ->.
           now apply list_elem_of_fmap_2.
      * intros _. exact Hdirs.
    + assert (Hother : mkdir_exist_ok fs self e = (fs1, r) →
        adds_dirs (map Path.str (ancestors_and_self self)) fs fs1
        ∧ (r = Ok tt →
           ∀ q, q ∈ ancestors_and_self self → fs1 !! Path.str q = Some Directory)).
      { intros H. apply mkdir_exist_ok_effect in H as [-> Hdirs].
        split; [apply adds_dirs_refl|exact Hdirs]. }
      destruct e; try exact Hother.
      destruct (mkdir_rec root rparent fs) as [fs0 [[]|e0]] eqn:Hrec.
      * intros Hleaf. apply IH in Hrec as [Hadd0 _].
        apply mkdir_leaf_effect in Hleaf as [Hadd1 Hdirs]. split; [|exact Hdirs].
        apply (adds_dirs_trans _ _ _ _ _ _ Hadd0 Hadd1).
        -- intros k Hk. unfold self. cbn [rev]. rewrite ancestors_snoc, map_app.
           apply elem_of_app. now left.
        -- intros k Hk. apply list_elem_of_singleton in Hk as ->.
           now apply list_elem_of_fmap_2.
      * intros [= <- <-]. apply IH in Hrec as [Hadd0 _]. split; [|discriminate].
        apply (adds_dirs_trans _ [] _ _ _ _ Hadd0 (adds_dirs_refl _ _)).
        -- intros k Hk. unfold self. cbn [rev]. rewrite ancestors_snoc, map_app.
           apply elem_of_app. now left.
        -- intros k Hk. now apply elem_of_nil in Hk.
Qed.

Lemma mkdir_parents_effect (fs fs1 : filesystem) (p : Path.t) (r : result unit) :
  mkdir_parents fs p = (fs1, r) →
  adds_dirs (map Path.str (ancestors_and_self p)) fs fs1
  ∧ (r = Ok tt →
     ∀ q, q ∈ ancestors_and_self p → fs1 !! Path.str q = Some Directory).
Proof.
  unfold mkdir_parents. intros H. apply mkdir_rec_effect in H.
  rewrite rev_involutive in H. now destruct p.
Qed.

(** Where every directory of the path is there, [mkdir] changes
    nothing. *)
Lemma mkdir_parents_noop (fs : filesystem) (p : Path.t) :
  (∀ q, q ∈ ancestors_and_self p → fs !! Path.str q = Some Directory) →
  mkdir_parents fs p = (fs, Ok tt).
Proof.
  intros Hall. pose proof (is_dir_of_dirs fs p Hall) as Hdir.
  assert (Hmk : ∃ f, os_mkdir fs p = Raise (FileExistsError f)).
  { unfold os_mkdir. destruct (Path.parts p) as [|w ws] eqn:Hparts; [eauto|].
    assert (Hne : Path.parts p ≠ []) by congruence.
    rewrite (ancestors_parent_dirs p Hne) in Hall.
    assert (Hwalk : walk_dirs fs (parent_dirs p) = Reached).
    { apply walk_dirs_Reached. intros q Hq. apply Hall, elem_of_app. now left. }
    rewrite Hwalk, (Hall p); [eauto|].
    apply elem_of_app. right. apply list_elem_of_here. }
  destruct Hmk as [f Hmk]. unfold mkdir_parents.
  assert (Hp : Path.mk (Path.root p) (rev (rev (Path.parts p))) = p)
    by (rewrite rev_involutive; now destruct p).
  destruct (rev (Path.parts p)) as [|w rparent] eqn:Hrev; cbn [mkdir_rec].
  - rewrite Hp, Hmk. unfold mkdir_exist_ok. now rewrite Hdir.
  - rewrite Hp, Hmk. unfold mkdir_exist_ok. now rewrite Hdir.
Qed.

Lemma walk_dirs_blocked (fs : filesystem) (before after : list Path.t)
    (q : Path.t) (n : node) :
  (∀ q', q' ∈ before → fs !! Path.str q' = Some Directory) →
  fs !! Path.str q = Some n →
  (n = BinaryFile ∨ ∃ text, n = File text) →
  walk_dirs fs (before ++ q :: after) = NotADirectory.
Proof.
  intros Hbefore Hq Hn. induction before as [|q0 before IH]; cbn.
  - rewrite Hq. now destruct Hn as [->|[text ->]].
  - rewrite (Hbefore q0) by apply list_elem_of_here.
    apply IH. intros q' Hq'. apply Hbefore. now apply list_elem_of_further.
Qed.

Lemma mkdir_parents_first (fs : filesystem) (p : Path.t) (e : exn) :
  os_mkdir fs p = Raise e →
  (∀ f, e ≠ FileNotFoundError f) →
  mkdir_parents fs p = mkdir_exist_ok fs p e.
Proof.
  intros Hmk Hne. unfold mkdir_parents.
  assert (Hp : Path.mk (Path.root p) (rev (rev (Path.parts p))) = p)
    by (rewrite rev_involutive; now destruct p).
  destruct (rev (Path.parts p)) as [|w rparent] eqn:Hrev; cbn [mkdir_rec].
  - rewrite Hp, Hmk. destruct e; try reflexivity. now destruct (Hne p0).
  - rewrite Hp, Hmk. destruct e; try reflexivity. now destruct (Hne p0).
Qed.

(** A file in the way of [mkdir]: the error names the path asked for, and
    nothing is made. *)
Lemma mkdir_parents_blocked (fs : filesystem) (p : Path.t)
    (pre post : list string) (w : string) (n : node) :
  Path.parts p = (pre ++ w :: post)%list →
  (∀ q, q ∈ ancestors_and_self (Path.mk (Path.root p) pre) →
        fs !! Path.str q = Some Directory) →
  fs !! Path.str (Path.mk (Path.root p) (pre ++ [w])) = Some n →
  (n = BinaryFile ∨ ∃ text, n = File text) →
  mkdir_parents fs p =
    (fs, Raise match post with
               | [] => FileExistsError (Path.str p)
               | _ :: _ => NotADirectoryError (Path.str p)
               end).
Proof.
  intros Hparts Hpre Hw Hn.
  assert (Hne : Path.parts p ≠ []) by (rewrite Hparts; now destruct pre).
  destruct post as [|x post'].
  - assert (Hself : Path.mk (Path.root p) (pre ++ [w]) = p)
      by (rewrite <- Hparts; now destruct p).
    rewrite Hself in Hw.
    assert (Hwalk : walk_dirs fs (parent_dirs p) = Reached).
    { apply walk_dirs_Reached. unfold parent_dirs.
      rewrite Hparts, removelast_last. exact Hpre. }
    assert (Hmk : os_mkdir fs p = Raise (FileExistsError (Path.str p))).
    { unfold os_mkdir. destruct (Path.parts p); [contradiction|].
      rewrite Hwalk, Hw. now destruct Hn as [->|[text ->]]. }
    rewrite (mkdir_parents_first _ _ _ Hmk) by discriminate.
    unfold mkdir_exist_ok, is_dir. destruct (Path.parts p); [contradiction|].
    rewrite Hwalk, Hw. now destruct Hn as [->|[text ->]].
  - assert (Hwalk : walk_dirs fs (parent_dirs p) = NotADirectory).
    { unfold parent_dirs. rewrite Hparts.
      change (pre ++ w :: x :: post')%list
        with (pre ++ [w] ++ x :: post')%list.
      rewrite app_assoc, removelast_app by discriminate.
      rewrite prefixes_app, prefixes_snoc, !map_app, <- app_assoc. cbn [map app].
      now apply (walk_dirs_blocked fs _ _ _ n). }
    assert (Hmk : os_mkdir fs p = Raise (NotADirectoryError (Path.str p))).
    { unfold os_mkdir. destruct (Path.parts p); [contradiction|].
      now rewrite Hwalk. }
    rewrite (mkdir_parents_first _ _ _ Hmk) by discriminate.
    unfold mkdir_exist_ok, is_dir. destruct (Path.parts p); [contradiction|].
    now rewrite Hwalk.
Qed.

Lemma load_content_local (json_loads yaml_safe_load : string → option value)
    (fs fs' : filesystem) (path : string) :
  fs' !! Path.str (Path.of_string path) = fs !! Path.str (Path.of_string path) →
  load_content json_loads yaml_safe_load fs' path
  = load_content json_loads yaml_safe_load fs path.
Proof.
  intros H. unfold load_content, read_document, exists_, read_text.
  now rewrite H.
Qed.

(** The loader succeeds on files only. *)
Lemma load_content_Ok_file (json_loads yaml_safe_load : string → option value)
    (fs : filesystem) (path : string) (content : gmap string value) :
  load_content json_loads yaml_safe_load fs path = Ok content →
  ∃ text, fs !! Path.str (Path.of_string path) = Some (File text).
Proof.
  unfold load_content, read_document, exists_, read_text.
  destruct (fs !! Path.str (Path.of_string path)) as [[|text| |errno]|];
    cbn; try discriminate. eauto.
Qed.

Section GenerateBehaviour.

Variable json_loads : string → option value.
Variable yaml_safe_load : string → option value.
Variable render_newsletter : gmap string value → AppConfig → option string.
Variable env : gmap string string.

Local Abbreviation load := (load_content json_loads yaml_safe_load).
Local Abbreviation gen := (generate json_loads yaml_safe_load render_newsletter env).
Local Abbreviation index_of out_dir :=
  (Path.str (Path.of_string out_dir /p "index.html")).

(** What a run that prints its line has done. *)
Lemma generate_Ok (fs fs2 : filesystem) (data out_dir : string)
    (open_after : bool) (msg : string) :
  gen fs data out_dir open_after = (fs2, Ok msg) →
  ∃ content html fs1,
    load fs data = Ok content
    ∧ render_newsletter content (AppConfig_of_env env) = Some html
    ∧ mkdir_parents fs (Path.of_string out_dir) = (fs1, Ok tt)
    ∧ fs1 !! index_of out_dir ≠ Some Directory
    ∧ fs2 = <[index_of out_dir := File html]> fs1
    ∧ msg = "Wrote " ++ index_of out_dir.
Proof.
  unfold generate.
  destruct (load fs data) as [content|e] eqn:Hload; [|intros [=]].
  destruct (render_newsletter content _) as [html|] eqn:Hrender; [|intros [=]].
  destruct (mkdir_parents fs _) as [fs1 [[]|e]] eqn:Hmk; [|intros [=]].
  unfold write_text.
  destruct (fs1 !! index_of out_dir) as [[| | |]|] eqn:Hidx; intros [= <- <-].
  all: exists content, html, fs1; rewrite Hidx; repeat split; congruence.
Qed.

(** What a run that ends with an error has done. *)
Lemma generate_Raise (fs fs' : filesystem) (data out_dir : string)
    (open_after : bool) (e : exn) :
  gen fs data out_dir open_after = (fs', Raise e) →
  fs' = fs
  ∨ ∃ content html r,
      load fs data = Ok content
      ∧ render_newsletter content (AppConfig_of_env env) = Some html
      ∧ mkdir_parents fs (Path.of_string out_dir) = (fs', r).
Proof.
  unfold generate.
  destruct (load fs data) as [content|e0] eqn:Hload;
    [|intros [= <- _]; now left].
  destruct (render_newsletter content _) as [html|] eqn:Hrender;
    [|intros [= <- _]; now left].
  destruct (mkdir_parents fs _) as [fs1 [[]|e0]] eqn:Hmk.
  - unfold write_text.
    destruct (fs1 !! index_of out_dir) as [[| | |]|] eqn:Hidx; intros [= <- <-].
    all: right; exists content, html, (Ok tt); now repeat split.
  - intros [= <- <-]. right. exists content, html, (Raise e0). now repeat split.
Qed.


(** X10.  A run that prints its line has written the rendered markup to
    index.html under the output directory, has made the output directory
    and each of its ancestors a directory, and has printed "Wrote "
    followed by the path of index.html. *)
Theorem generate_success_effect (fs fs2 : filesystem) (data out_dir : string)
    (open_after : bool) (msg : string) :
  gen fs data out_dir open_after = (fs2, Ok msg) →
  msg = "Wrote " ++ index_of out_dir
  ∧ (∃ content html,
       load fs data = Ok content
       ∧ render_newsletter content (AppConfig_of_env env) = Some html
       ∧ fs2 !! index_of out_dir = Some (File html))
  ∧ ∀ q, q ∈ ancestors_and_self (Path.of_string out_dir) →
         fs2 !! Path.str q = Some Directory.
Proof.
  intros Hgen.
  apply generate_Ok in Hgen
    as (content & html & fs1 & Hload & Hrender & Hmk & Hidx & -> & ->).
  split; [reflexivity|]. split.
  - exists content, html. repeat split; [assumption..|]. apply lookup_insert_eq.
  - intros q Hq. apply mkdir_parents_effect in Hmk as [_ Hdirs].
    pose proof (Hdirs eq_refl q Hq) as Hdir.
    rewrite lookup_insert_ne; [exact Hdir|]. intros Heq. congruence.
Qed.

(** X11.  Whatever its outcome, a run into a plain output directory
    removes nothing and alters no entry other than index.html, and it
    adds entries only at the output directory, its ancestors and
    index.html. *)
Theorem generate_frame (fs fs' : filesystem) (data out_dir : string)
    (open_after : bool) (r : result string) :
  gen fs data out_dir open_after = (fs', r) →
  plain (Path.of_string out_dir) →
  ∀ k, plain_key (Path.root (Path.of_string out_dir)) k →
       k ≠ index_of out_dir →
       (∀ n, fs !! k = Some n → fs' !! k = Some n)
       ∧ (k ∉ map Path.str (ancestors_and_self (Path.of_string out_dir)) →
          fs' !! k = fs !! k).
Proof.
  intros Hgen _ k _ Hk. destruct r as [msg|e].
  - apply generate_Ok in Hgen
      as (content & html & fs1 & _ & _ & Hmk & _ & -> & _).
    apply mkdir_parents_effect in Hmk as [Hadd _].
    rewrite lookup_insert_ne by congruence. split.
    + intros n. apply Hadd.
    + now apply adds_dirs_frame.
  - apply generate_Raise in Hgen as [->|(content & html & r & _ & _ & Hmk)];
      [now split|].
    apply mkdir_parents_effect in Hmk as [Hadd _]. split.
    + intros n. apply Hadd.
    + now apply adds_dirs_frame.
Qed.

(** X12.  Generating again into the same directory succeeds, prints the
    same line and leaves the filesystem as the first run left it, for a
    plain input path and a plain output directory of one root, the input
    file not being the index.html that is written. *)
Theorem generate_again (fs fs2 : filesystem) (data out_dir : string)
    (open_after open_after' : bool) (msg : string) :
  gen fs data out_dir open_after = (fs2, Ok msg) →
  plain (Path.of_string data) →
  plain (Path.of_string out_dir) →
  Path.root (Path.of_string data) = Path.root (Path.of_string out_dir) →
  Path.str (Path.of_string data) ≠ index_of out_dir →
  gen fs2 data out_dir open_after' = (fs2, Ok msg).
Proof.
  intros Hgen _ _ _ Hdata.
  apply generate_Ok in Hgen
    as (content & html & fs1 & Hload & Hrender & Hmk & Hidx & -> & ->).
  apply mkdir_parents_effect in Hmk as [[Hkeep _] Hdirs1].
  set (fs2 := <[index_of out_dir := File html]> fs1).
  assert (Hdirs : ∀ q, q ∈ ancestors_and_self (Path.of_string out_dir) →
                       fs2 !! Path.str q = Some Directory).
  { intros q Hq. pose proof (Hdirs1 eq_refl q Hq) as Hdir.
    unfold fs2. rewrite lookup_insert_ne; [exact Hdir|]. intros Heq. congruence. }
  assert (Hload2 : load fs2 data = Ok content).
  { rewrite <- Hload. apply load_content_local.
    unfold fs2. rewrite lookup_insert_ne by congruence.
    destruct (load_content_Ok_file _ _ _ _ _ Hload) as [text Hfile].
    rewrite Hfile. now apply Hkeep. }
  unfold generate. rewrite Hload2, Hrender.
  rewrite (mkdir_parents_noop _ _ Hdirs).
  unfold write_text, fs2. rewrite lookup_insert_eq.
  now rewrite insert_insert_eq.
Qed.

(** X13.  When the output directory is plain and it, or a directory that
    leads to it, is an existing file, a run whose load and render
    succeeded makes nothing and fails with an error that names the
    output directory: FileExistsError when the file is the output
    directory itself, NotADirectoryError when it lies on the way. *)
Theorem generate_blocked_output (fs : filesystem) (data out_dir : string)
    (open_after : bool) (content : gmap string value) (html : string)
    (pre post : list string) (w : string) (n : node) :
  load fs data = Ok content →
  render_newsletter content (AppConfig_of_env env) = Some html →
  plain (Path.of_string out_dir) →
  Path.parts (Path.of_string out_dir) = (pre ++ w :: post)%list →
  (∀ q, q ∈ ancestors_and_self (Path.mk (Path.root (Path.of_string out_dir)) pre) →
        fs !! Path.str q = Some Directory) →
  fs !! Path.str (Path.mk (Path.root (Path.of_string out_dir)) (pre ++ [w]))
  = Some n →
  (n = BinaryFile ∨ ∃ text, n = File text) →
  gen fs data out_dir open_after =
    (fs, Raise match post with
               | [] => FileExistsError (Path.str (Path.of_string out_dir))
               | _ :: _ => NotADirectoryError (Path.str (Path.of_string out_dir))
               end).
Proof.
  intros Hload Hrender _ Hparts Hpre Hw Hn.
  unfold generate. rewrite Hload, Hrender.
  now rewrite (mkdir_parents_blocked _ _ _ _ _ _ Hparts Hpre Hw Hn).
Qed.

End GenerateBehaviour.


(** * Further properties of the image providers *)

(** X14.  [LocalProvider.fetch] looks at the first candidate only: the
    request and the candidates after the first never change its answer,
    which always carries a path and never a url. *)
Theorem fetch_uses_first_candidate_only (first : string)
    (rest rest' : list string) (req req' : ImageRequest) :
  fetch (mkLocalProvider (first :: rest)) req
  = fetch (mkLocalProvider (first :: rest')) req'
  ∧ path (fetch (mkLocalProvider (first :: rest)) req) = Some first
  ∧ url (fetch (mkLocalProvider (first :: rest)) req) = None.
Proof. now rewrite !fetch_local. Qed.

(** X15.  The image chosen under the configuration read from the
    environment depends on the environment through ASSETS_DIR alone, and
    without ASSETS_DIR it is assets/images/panther/header.png. *)
Theorem choose_image_of_env (env env' : gmap string string) (t t' : string) :
  (env !! "ASSETS_DIR" = env' !! "ASSETS_DIR" →
   choose_image t (AppConfig_of_env env) = choose_image t' (AppConfig_of_env env'))
  ∧ (env !! "ASSETS_DIR" = None →
     choose_image t (AppConfig_of_env env)
     = {| url := None;
          path := Some "assets/images/panther/header.png";
          attribution := Some "Local asset" |}).
Proof.
  split.
  - intros Hdir. unfold choose_image. rewrite !fetch_local.
    unfold candidate_assets, header_asset, AppConfig_of_env. cbn [assets_dir].
    now rewrite Hdir.
  - intros Hdir. unfold choose_image. rewrite fetch_local.
    unfold candidate_assets, header_asset, AppConfig_of_env. cbn [assets_dir].
    rewrite Hdir. reflexivity.
Qed.

(** * The further properties on sample inputs *)

Lemma loaded_record_keys_witness :
  more_load more_fs "data/titled.yml" = Ok (normalize titled_document)
  ∧ dom (normalize titled_document) = content_keys
  ∧ normalize titled_document !! "title" = None.
Proof.
  assert (Hload : more_load more_fs "data/titled.yml"
                  = Ok (normalize titled_document)) by (vm_compute; reflexivity).
  destruct (loaded_record_keys sample_json_loads more_yaml_safe_load
              more_fs "data/titled.yml" _ Hload) as [Hdom Hout].
  split; [exact Hload|]. split; [exact Hdom|].
  apply Hout. vm_compute. intros H. discriminate H.
Defined.

Lemma loaded_record_is_normal_witness :
  more_load more_fs "data/titled.yml" = Ok (normalize titled_document)
  ∧ normalize (normalize titled_document) = normalize titled_document.
Proof.
  assert (Hload : more_load more_fs "data/titled.yml"
                  = Ok (normalize titled_document)) by (vm_compute; reflexivity).
  split; [exact Hload|].
  exact (loaded_record_is_normal sample_json_loads more_yaml_safe_load
           more_fs "data/titled.yml" _ Hload).
Defined.

Lemma unread_keys_ignored_witness :
  titled_document !! "title" = Some (VStr "hi")
  ∧ alias_document !! "title" = None
  ∧ ∃ out, more_load more_fs "data/alias.yml" = Ok out
           ∧ more_load more_fs "data/titled.yml" = Ok out.
Proof.
  split; [vm_compute; reflexivity|]. split; [vm_compute; reflexivity|].
  apply (unread_keys_ignored sample_json_loads more_yaml_safe_load more_fs
           "data/alias.yml" "data/titled.yml" alias_document titled_document).
  - vm_compute; reflexivity.
  - vm_compute; reflexivity.
  - intros k Hk. unfold read_keys in Hk.
    repeat (apply elem_of_cons in Hk as [->|Hk]; [vm_compute; reflexivity|]).
    now apply elem_of_nil in Hk.
Defined.

Lemma week_and_grades_never_falsy_witness :
  more_load more_fs "data/titled.yml" = Ok (normalize titled_document)
  ∧ ∃ w, normalize titled_document !! "week" = Some w ∧ truthy w = true.
Proof.
  assert (Hload : more_load more_fs "data/titled.yml"
                  = Ok (normalize titled_document)) by (vm_compute; reflexivity).
  split; [exact Hload|].
  exact (proj1 (week_and_grades_never_falsy sample_json_loads more_yaml_safe_load
                  more_fs "data/titled.yml" _ Hload)).
Defined.

Lemma alias_shadowed_by_canonical_witness :
  ∃ out, more_load more_fs "data/canonical.yml" = Ok out
         ∧ more_load more_fs "data/both.yml" = Ok out
         ∧ out !! "grade6" = Some (VList [VStr "a"]).
Proof.
  apply (alias_shadowed_by_canonical sample_json_loads more_yaml_safe_load more_fs
           "data/canonical.yml" "data/both.yml" canonical_document
           "6th" "grade6" (VList [VStr "a"]) (VList [VStr "b"])).
  - unfold GradeKeys. apply list_elem_of_here.
  - vm_compute; reflexivity.
  - reflexivity.
  - vm_compute; reflexivity.
  - vm_compute; reflexivity.
Defined.

Lemma yaml_falsy_document_defaults_witness :
  more_yaml_safe_load "[]" = Some (VList [])
  ∧ more_load more_fs "data/list.yml" = Ok default_content.
Proof.
  split; [reflexivity|].
  apply (yaml_falsy_document_defaults sample_json_loads more_yaml_safe_load
           more_fs "data/list.yml" "[]" (VList [])).
  - vm_compute; reflexivity.
  - vm_compute; reflexivity.
  - reflexivity.
  - reflexivity.
Defined.

Lemma non_dictionary_document_rejected_witness :
  more_load more_fs "data/list.json" = Raise AttributeError
  ∧ more_load more_fs "data/items.yml" = Raise AttributeError.
Proof.
  split.
  - apply (non_dictionary_document_rejected sample_json_loads more_yaml_safe_load
             more_fs "data/list.json" "[1]" (VList [VInt 1])).
    + vm_compute; reflexivity.
    + reflexivity.
    + vm_compute; reflexivity.
  - apply (non_dictionary_document_rejected sample_json_loads more_yaml_safe_load
             more_fs "data/items.yml" "- a" (VList [VStr "a"])).
    + vm_compute; reflexivity.
    + reflexivity.
    + vm_compute. split; reflexivity.
Defined.

Example load_failures :
  map (more_load more_fs)
      ["data/none.yml"; "data"; "data/photo.yml"; "data/broken.yml";
       "data/broken.json"; "data/null.json"; "data/items.yml"]
  = map Raise
      [FileNotFoundError "data/none.yml"; IsADirectoryError "data";
       UnicodeDecodeError; YAMLError; JSONDecodeError; AttributeError;
       AttributeError].
Proof. vm_compute. reflexivity. Qed.

(** C6 as stated fails.  Nothing exists under a name of 300 bytes, so the
    path does not exist; yet the loader does not fail with a
    NotFound-class error there, but with the OSError of errno 36 that the
    existence test itself raises. *)
Lemma missing_long_name_counterexample :
  String.length long_name = 300
  ∧ on_disk long_name_fs (Path.of_string long_name) = false
  ∧ sample_load long_name_fs long_name = Raise (OSError 36)
  ∧ is_not_found (OSError 36) = false
  ∧ ¬ ∃ e, sample_load long_name_fs long_name = Raise e ∧ is_not_found e = true.
Proof.
  split; [vm_compute; reflexivity|].
  split; [vm_compute; reflexivity|].
  assert (Hload : sample_load long_name_fs long_name = Raise (OSError 36))
    by (vm_compute; reflexivity).
  split; [exact Hload|]. split; [reflexivity|].
  intros (e & He & Hnf). rewrite Hload in He. injection He as <-. discriminate Hnf.
Qed.

Ltac decide_closed := apply (bool_decide_unpack _); vm_compute; exact I.

Example generate_sample :
  more_generate more_fs "data/alias.yml" "out/site" true
  = (<["out/site/index.html" := File "<p>Glennallen Panthers: This Week</p>"]>
       (<["out/site" := Directory]> (<["out" := Directory]> more_fs)),
     Ok "Wrote out/site/index.html").
Proof. vm_compute. reflexivity. Qed.


Lemma generate_success_effect_witness :
  more_generate more_fs "data/alias.yml" "out/site" true
  = (site_fs, Ok "Wrote out/site/index.html")
  ∧ (∃ content html,
       more_load more_fs "data/alias.yml" = Ok content
       ∧ sample_render content (AppConfig_of_env ∅) = Some html
       ∧ site_fs !! "out/site/index.html" = Some (File html))
  ∧ site_fs !! "out" = Some Directory
  ∧ site_fs !! "out/site" = Some Directory.
Proof.
  assert (Hgen : more_generate more_fs "data/alias.yml" "out/site" true
                 = (site_fs, Ok "Wrote out/site/index.html"))
    by (vm_compute; reflexivity).
  destruct (generate_success_effect sample_json_loads more_yaml_safe_load
              sample_render ∅ more_fs site_fs "data/alias.yml" "out/site" true _ Hgen)
    as (_ & Hindex & Hdirs).
  split; [exact Hgen|]. split; [exact Hindex|]. split.
  - apply (Hdirs (Path.mk "" ["out"])). apply list_elem_of_here.
  - apply (Hdirs (Path.mk "" ["out"; "site"])).
    apply list_elem_of_further, list_elem_of_here.
Defined.

Lemma generate_frame_witness :
  more_fs !! "data/alias.yml" = Some (File "6th: [a]")
  ∧ site_fs !! "data/alias.yml" = Some (File "6th: [a]")
  ∧ site_fs !! "elsewhere" = more_fs !! "elsewhere".
Proof.
  assert (Hgen : more_generate more_fs "data/alias.yml" "out/site" true
                 = (site_fs, Ok "Wrote out/site/index.html"))
    by (vm_compute; reflexivity).
  assert (Hplain : plain (Path.of_string "out/site"))
    by (unfold plain; decide_closed).
  pose proof (generate_frame sample_json_loads more_yaml_safe_load
                sample_render ∅ more_fs site_fs "data/alias.yml" "out/site" true _
                Hgen Hplain) as Hframe.
  assert (Hfile : more_fs !! "data/alias.yml" = Some (File "6th: [a]"))
    by (vm_compute; reflexivity).
  split; [exact Hfile|]. split.
  - destruct (Hframe "data/alias.yml") as [Hkeep _].
    + split; [vm_compute; reflexivity|]. split; [vm_compute; reflexivity|].
      unfold plain; decide_closed.
    + vm_compute. intros H. discriminate H.
    + now apply Hkeep.
  - destruct (Hframe "elsewhere") as [_ Hnew].
    + split; [vm_compute; reflexivity|]. split; [vm_compute; reflexivity|].
      unfold plain; decide_closed.
    + vm_compute. intros H. discriminate H.
    + apply Hnew. decide_closed.
Defined.

Lemma generate_again_witness :
  more_generate more_fs "data/alias.yml" "out/site" true
  = (site_fs, Ok "Wrote out/site/index.html")
  ∧ more_generate site_fs "data/alias.yml" "out/site" false
    = (site_fs, Ok "Wrote out/site/index.html").
Proof.
  assert (Hgen : more_generate more_fs "data/alias.yml" "out/site" true
                 = (site_fs, Ok "Wrote out/site/index.html"))
    by (vm_compute; reflexivity).
  split; [exact Hgen|].
  apply (generate_again sample_json_loads more_yaml_safe_load sample_render ∅
           more_fs site_fs "data/alias.yml" "out/site" true false _ Hgen).
  - unfold plain; decide_closed.
  - unfold plain; decide_closed.
  - reflexivity.
  - vm_compute. intros H. discriminate H.
Defined.

Lemma generate_blocked_output_witness :
  more_fs !! "blocked" = Some (File "not a directory")
  ∧ more_generate more_fs "data/alias.yml" "blocked/site" false
    = (more_fs, Raise (NotADirectoryError "blocked/site"))
  ∧ more_generate more_fs "data/alias.yml" "blocked" false
    = (more_fs, Raise (FileExistsError "blocked")).
Proof.
  split; [vm_compute; reflexivity|]. split.
  - apply (generate_blocked_output sample_json_loads more_yaml_safe_load
             sample_render ∅ more_fs "data/alias.yml" "blocked/site" false
             (normalize alias_document) "<p>Glennallen Panthers: This Week</p>"
             [] ["site"] "blocked" (File "not a directory")).
    + vm_compute; reflexivity.
    + vm_compute; reflexivity.
    + unfold plain; decide_closed.
    + vm_compute; reflexivity.
    + intros q Hq. now apply elem_of_nil in Hq.
    + vm_compute; reflexivity.
    + right. eauto.
  - apply (generate_blocked_output sample_json_loads more_yaml_safe_load
             sample_render ∅ more_fs "data/alias.yml" "blocked" false
             (normalize alias_document) "<p>Glennallen Panthers: This Week</p>"
             [] [] "blocked" (File "not a directory")).
    + vm_compute; reflexivity.
    + vm_compute; reflexivity.
    + unfold plain; decide_closed.
    + vm_compute; reflexivity.
    + intros q Hq. now apply elem_of_nil in Hq.
    + vm_compute; reflexivity.
    + right. eauto.
Defined.

